(** * Sale commit and sales analytics of the retail server

    Shallow embedding of the [POST /api/sales] and [GET /api/analytics/sales]
    handlers of the Express server, and of the totals computed by the
    [Billing] page before it posts a sale.

    JavaScript numbers are IEEE-754 binary64 values: money amounts (prices,
    line totals, subtotal, discount, tax, total) are primitive floats.
    Fields the code only ever holds as integers (ids, stock, quantities,
    timestamps) are kept as [Z]; JavaScript arithmetic on them is exact as
    long as they stay below 2^53. ISO-8601 timestamps ([createdAt],
    [lastUpdated]) are represented by their millisecond value, which is what
    [new Date(..)] compares. *)

From Stdlib Require Import ZArith List String Bool Floats Uint63 Lia.
From Stdlib Require Import Sorted Permutation.
From Stdlib Require Import DecimalString.
Import ListNotations.

Local Set Warnings "-inexact-float".
Open Scope Z_scope.

(** ** JavaScript numbers *)

(** [Number(z)] for an integer [z] with |z| < 2^53. *)
Definition float_of_Z (z : Z) : float :=
  if z <? 0
  then PrimFloat.opp (PrimFloat.of_uint63 (Uint63.of_Z (- z)))
  else PrimFloat.of_uint63 (Uint63.of_Z z).

(** [v || 0] on a number: [0], [-0] and [NaN] are falsy. *)
Definition js_or_zero (v : float) : float :=
  if PrimFloat.eqb v 0%float || negb (PrimFloat.eqb v v) then 0%float else v.

(** [String(z)] for an integer. *)
Definition js_string_of_Z (z : Z) : string :=
  NilZero.string_of_int (Z.to_int z).

(** ** Data model (products.json, sales.json, categories.json) *)

Record Product := mkProduct {
  p_id : Z;
  p_name : string;
  p_sku : string;
  p_categoryId : Z;
  p_price : float;
  p_stock : Z;
  p_lastUpdated : Z
}.

Record Category := mkCategory {
  c_id : Z;
  c_name : string
}.

(** An entry of [saleItems]. *)
Record SaleItem := mkSaleItem {
  si_productId : Z;
  si_productName : string;
  si_sku : string;
  si_price : float;
  si_quantity : Z;
  si_total : float
}.

Record Sale := mkSale {
  s_id : Z;
  s_items : list SaleItem;
  s_subtotal : float;
  s_discount : float;
  s_tax : float;
  s_total : float;
  s_paymentMethod : string;
  s_customerName : string;
  s_cashierId : Z;
  s_cashierName : string;
  s_createdAt : Z
}.

(** An element of [req.body.items]: the validator requires [productId] to
    be an integer and [quantity] an integer. *)
Record CartLine := mkCartLine {
  ci_productId : Z;
  ci_quantity : Z
}.

(** [req.body] of [POST /api/sales]; optional fields are [option]s. *)
Record SaleRequest := mkSaleRequest {
  rq_items : list CartLine;
  rq_paymentMethod : string;
  rq_customerName : option string;
  rq_discount : option float;
  rq_tax : option float
}.

(** [req.user], set by [authenticateToken]. *)
Record User := mkUser {
  u_id : Z;
  u_username : string
}.

(** The two data files the handler reads and writes. *)
Record DataFiles := mkDataFiles {
  products_json : list Product;
  sales_json : list Sale
}.

(** The outcome of one [fs.writeFile] call of [writeDataFile]. The file is
    opened with flag 'w', which truncates it, and written in place, with no
    temporary file and no rename:
    - [WriteOk]: the data is written and the call resolves;
    - [WriteOpenFailed]: the open fails and the file keeps its content;
    - [WritePartial]: the write fails after the truncating open, leaving an
      empty file or a proper prefix of [JSON.stringify(data, null, 2)]; such
      a text lacks the closing bracket, [JSON.parse] throws, and
      [readDataFile] reads the file back as [[]];
    - [WriteCloseFailed]: the data is written and closing the file fails.
    Every failure rethrows. *)
Inductive WriteResult :=
| WriteOk
| WriteOpenFailed
| WritePartial
| WriteCloseFailed.

Definition write_succeeds (w : WriteResult) : bool :=
  match w with
  | WriteOk => true
  | _ => false
  end.

(** What [readDataFile] returns for a file after writing [data] over [old]. *)
Definition file_after {A : Type} (w : WriteResult) (old data : list A) : list A :=
  match w with
  | WriteOk | WriteCloseFailed => data
  | WriteOpenFailed => old
  | WritePartial => []
  end.

(** What a sale commit depends on beside its input: the outcome of each of
    its two writes, and the engine's limit on the number of arguments of a
    call, which the spread in [Math.max(...ids, 0)] exceeds on a long list
    and then throws a RangeError. *)
Record WriteOutcome := mkWriteOutcome {
  products_write : WriteResult;
  sales_write : WriteResult;
  max_call_args : Z
}.

(** [f(...xs, 0)] passes [xs.length + 1] arguments. *)
Definition spread_fits (limit : Z) (n : nat) : bool := Z.of_nat n + 1 <=? limit.

(** Both writes succeed, with a limit of 65536 arguments (JavaScriptCore's;
    V8 allows more). *)
Definition all_writes_ok : WriteOutcome := mkWriteOutcome WriteOk WriteOk 65536.

Inductive Response :=
| RValidationError                 (* 400 with [errors.array()] *)
| RBadRequest (message : string)   (* 400 with [{ message }] *)
| RCreated (sale : Sale)           (* 201 with the new sale *)
| RServerError.                    (* 500 'Server error' *)

(** ** POST /api/sales *)

(** The express-validator chain of the route. *)
Definition opt_nonneg (v : option float) : bool :=
  match v with
  | None => true
  | Some f => PrimFloat.leb 0%float f
  end.

Definition validate_sale_request (rq : SaleRequest) : bool :=
  forallb (fun it => 1 <=? ci_quantity it) (rq_items rq)
  && negb (String.eqb (rq_paymentMethod rq) EmptyString)
  && opt_nonneg (rq_discount rq)
  && opt_nonneg (rq_tax rq).

(** [products.find(p => p.id === pid)] *)
Fixpoint find_product (pid : Z) (ps : list Product) : option Product :=
  match ps with
  | [] => None
  | p :: r => if p_id p =? pid then Some p else find_product pid r
  end.

(** The validation loop: for each item, look the product up, compare its
    stock with the quantity, and push the priced line; the first failing
    item returns a 400. *)
Fixpoint price_items (products : list Product) (items : list CartLine)
    (subtotal : float) (saleItems : list SaleItem)
    : string + (float * list SaleItem) :=
  match items with
  | [] => inr (subtotal, saleItems)
  | item :: rest =>
      match find_product (ci_productId item) products with
      | None =>
          inl (String.append "Product with ID "
                 (String.append (js_string_of_Z (ci_productId item)) " not found"))
      | Some product =>
          if p_stock product <? ci_quantity item
          then inl (String.append "Insufficient stock for " (p_name product))
          else
            let itemTotal := PrimFloat.mul (p_price product)
                               (float_of_Z (ci_quantity item)) in
            price_items products rest (PrimFloat.add subtotal itemTotal)
              (saleItems ++ [mkSaleItem (p_id product) (p_name product)
                               (p_sku product) (p_price product)
                               (ci_quantity item) itemTotal])
      end
  end.

(** [products[products.findIndex(p => p.id === pid)]] gets its stock
    decreased and [lastUpdated] set; only found ids reach this loop. *)
Fixpoint decrement_stock (pid q now : Z) (ps : list Product) : list Product :=
  match ps with
  | [] => []
  | p :: r =>
      if p_id p =? pid
      then mkProduct (p_id p) (p_name p) (p_sku p) (p_categoryId p)
             (p_price p) (p_stock p - q) now :: r
      else p :: decrement_stock pid q now r
  end.

(** The stock update loop, over the items of the request in order. *)
Definition update_stock (items : list CartLine) (now : Z)
    (products : list Product) : list Product :=
  fold_left (fun ps item => decrement_stock (ci_productId item)
                              (ci_quantity item) now ps) items products.

(** [Math.max(...sales.map(s => s.id), 0) + 1], when the call does not
    throw; [post_sales] checks [spread_fits] first. *)
Definition next_sale_id (sales : list Sale) : Z :=
  fold_left Z.max (map s_id sales) 0 + 1.

(** [customerName || 'Walk-in Customer'] *)
Definition customer_or_walk_in (c : option string) : string :=
  match c with
  | None | Some EmptyString => "Walk-in Customer"
  | Some s => s
  end.

(** [writeDataFile('products.json', ..)] and [writeDataFile('sales.json', ..)]:
    whether the call resolves, and the files as read back afterwards. *)
Definition write_products (wr : WriteOutcome) (fs : DataFiles)
    (ps : list Product) : bool * DataFiles :=
  (write_succeeds (products_write wr),
   mkDataFiles (file_after (products_write wr) (products_json fs) ps) (sales_json fs)).

Definition write_sales (wr : WriteOutcome) (fs : DataFiles)
    (ss : list Sale) : bool * DataFiles :=
  (write_succeeds (sales_write wr),
   mkDataFiles (products_json fs) (file_after (sales_write wr) (sales_json fs) ss)).

(** The handler: request validation, then the [try] block. An exception
    thrown by the id computation or by a write is caught and answered with
    a 500. *)
Definition post_sales (wr : WriteOutcome) (user : User) (now : Z)
    (rq : SaleRequest) (fs : DataFiles) : Response * DataFiles :=
  if negb (validate_sale_request rq) then (RValidationError, fs) else
  let products := products_json fs in
  let sales := sales_json fs in
  let discount := match rq_discount rq with Some d => d | None => 0%float end in
  let tax := match rq_tax rq with Some t => t | None => 0%float end in
  match price_items products (rq_items rq) 0%float [] with
  | inl message => (RBadRequest message, fs)
  | inr (subtotal, saleItems) =>
      if negb (spread_fits (max_call_args wr) (List.length sales)) then (RServerError, fs) else
      let total := PrimFloat.add (PrimFloat.sub subtotal discount) tax in
      let newSale :=
        mkSale (next_sale_id sales) saleItems subtotal discount tax total
          (rq_paymentMethod rq) (customer_or_walk_in (rq_customerName rq))
          (u_id user) (u_username user) now in
      let products' := update_stock (rq_items rq) now products in
      let sales' := sales ++ [newSale] in
      match write_products wr fs products' with
      | (false, fs1) => (RServerError, fs1)
      | (true, fs1) =>
          match write_sales wr fs1 sales' with
          | (false, fs2) => (RServerError, fs2)
          | (true, fs2) => (RCreated newSale, fs2)
          end
      end
  end.

(** ** Billing page *)

(** A cart entry of the Billing page. *)
Record CartItem := mkCartItem {
  ct_productId : Z;
  ct_productName : string;
  ct_sku : string;
  ct_price : float;
  ct_quantity : Z;
  ct_total : float
}.

(** The entry [setQuantity] leaves for a product: [total: quantity * item.price]. *)
Definition cart_item_with_quantity (p : Product) (quantity : Z) : CartItem :=
  mkCartItem (p_id p) (p_name p) (p_sku p) (p_price p) quantity
    (PrimFloat.mul (float_of_Z quantity) (p_price p)).

Record BillingTotals := mkBillingTotals {
  b_subtotal : float;
  b_discountAmount : float;
  b_taxableAmount : float;
  b_taxAmount : float;
  b_total : float
}.

(** The totals the page derives from the cart and the two percentage
    fields ([watch(..) || 0]). *)
Definition billing_totals (cart : list CartItem)
    (discountPercentField taxPercentField : float) : BillingTotals :=
  let discountPercent := js_or_zero discountPercentField in
  let taxPercent := js_or_zero taxPercentField in
  let subtotal := fold_left (fun sum item => PrimFloat.add sum (ct_total item))
                    cart 0%float in
  let discountAmount := PrimFloat.div (PrimFloat.mul subtotal discountPercent) 100 in
  let taxableAmount := PrimFloat.sub subtotal discountAmount in
  let taxAmount := PrimFloat.div (PrimFloat.mul taxableAmount taxPercent) 100 in
  let total := PrimFloat.add taxableAmount taxAmount in
  mkBillingTotals subtotal discountAmount taxableAmount taxAmount total.

(** The [{ min: 0, max: 100 }] rules of the two percentage fields: a value
    below 0 or above 100 stops [handleSubmit]; an empty field ([NaN] here)
    is not checked. *)
Definition percent_field_ok (v : float) : bool :=
  negb (PrimFloat.ltb v 0%float) && negb (PrimFloat.ltb 100%float v).

(** [handleSubmit(onSubmit)]: the form rules, then [onSubmit]. An empty cart
    is refused on the page; otherwise the request body posted to
    [/api/sales] carries the discount and tax amounts. *)
Definition billing_on_submit (cart : list CartItem) (customerName paymentMethod : string)
    (discountPercentField taxPercentField : float) : option SaleRequest :=
  if negb (percent_field_ok discountPercentField && percent_field_ok taxPercentField)
  then None else
  match cart with
  | [] => None
  | _ =>
      let t := billing_totals cart discountPercentField taxPercentField in
      Some (mkSaleRequest
              (map (fun item => mkCartLine (ct_productId item) (ct_quantity item)) cart)
              paymentMethod (Some (customer_or_walk_in (Some customerName)))
              (Some (b_discountAmount t)) (Some (b_taxAmount t)))
  end.

(** ** GET /api/analytics/sales *)

(** A query-string date: absent (or empty, hence falsy), a parsed instant,
    or a string [new Date(..)] cannot parse (an Invalid Date, truthy as a
    string, whose comparisons are all false). *)
Inductive QueryDate :=
| QAbsent
| QDate (t : Z)
| QInvalid.

Definition query_truthy (q : QueryDate) : bool :=
  match q with QAbsent => false | _ => true end.

(** [saleDate >= new Date(startDate)] *)
Definition date_ge (saleDate : Z) (q : QueryDate) : bool :=
  match q with QDate b => b <=? saleDate | _ => false end.

(** [saleDate <= new Date(endDate)] *)
Definition date_le (saleDate : Z) (q : QueryDate) : bool :=
  match q with QDate b => saleDate <=? b | _ => false end.

Definition filter_sales (startDate endDate : QueryDate) (sales : list Sale)
    : list Sale :=
  if query_truthy startDate && query_truthy endDate
  then filter (fun sale => date_ge (s_createdAt sale) startDate
                           && date_le (s_createdAt sale) endDate) sales
  else sales.

(** [filteredSales.reduce((sum, sale) => sum + sale.total, 0)] *)
Definition total_sales (sales : list Sale) : float :=
  fold_left (fun sum sale => PrimFloat.add sum (s_total sale)) sales 0%float.

(** [categories.find(c => c.id === cid)] *)
Fixpoint find_category (cid : Z) (cs : list Category) : option Category :=
  match cs with
  | [] => None
  | c :: r => if c_id c =? cid then Some c else find_category cid r
  end.

(** A JavaScript object with string keys, as the list of its properties in
    insertion order. Only own properties are modelled: a category named
    after an [Object.prototype] member ([constructor], [toString], ...)
    would find an inherited value in the source, and is not covered. *)
Fixpoint obj_get (k : string) (m : list (string * float)) : option float :=
  match m with
  | [] => None
  | (k', v) :: r => if String.eqb k k' then Some v else obj_get k r
  end.

Fixpoint obj_set (k : string) (v : float) (m : list (string * float))
    : list (string * float) :=
  match m with
  | [] => [(k, v)]
  | (k', v') :: r =>
      if String.eqb k k' then (k', v) :: r else (k', v') :: obj_set k v r
  end.

(** One item of the [salesByCategory] loop. *)
Definition category_step (products : list Product) (categories : list Category)
    (m : list (string * float)) (item : SaleItem) : list (string * float) :=
  match find_product (si_productId item) products with
  | None => m
  | Some product =>
      match find_category (p_categoryId product) categories with
      | None => m
      | Some category =>
          let old := match obj_get (c_name category) m with
                     | Some v => js_or_zero v
                     | None => 0%float
                     end in
          obj_set (c_name category) (PrimFloat.add old (si_total item)) m
      end
  end.

Definition sales_by_category (products : list Product) (categories : list Category)
    (sales : list Sale) : list (string * float) :=
  fold_left (fun m sale => fold_left (category_step products categories) (s_items sale) m)
    sales [].

(** A value of [productSales]. *)
Record ProductSales := mkProductSales {
  ps_productName : string;
  ps_quantity : Z;
  ps_total : float
}.

(** [productSales], keyed by [productId], in insertion order. *)
Fixpoint ps_get (k : Z) (m : list (Z * ProductSales)) : option ProductSales :=
  match m with
  | [] => None
  | (k', d) :: r => if k =? k' then Some d else ps_get k r
  end.

Fixpoint ps_set (k : Z) (d : ProductSales) (m : list (Z * ProductSales))
    : list (Z * ProductSales) :=
  match m with
  | [] => [(k, d)]
  | (k', d') :: r => if k =? k' then (k', d) :: r else (k', d') :: ps_set k d r
  end.

(** One item of the [productSales] loop. *)
Definition product_step (m : list (Z * ProductSales)) (item : SaleItem)
    : list (Z * ProductSales) :=
  match ps_get (si_productId item) m with
  | Some d =>
      ps_set (si_productId item)
        (mkProductSales (ps_productName d) (ps_quantity d + si_quantity item)
           (PrimFloat.add (ps_total d) (si_total item))) m
  | None =>
      ps_set (si_productId item)
        (mkProductSales (si_productName item) (si_quantity item) (si_total item)) m
  end.

Definition product_sales (sales : list Sale) : list (Z * ProductSales) :=
  fold_left (fun m sale => fold_left product_step (s_items sale) m) sales [].

(** [Object.entries]: integer-index keys first in ascending numeric order,
    then the other keys in insertion order. *)
Definition is_array_index (k : Z) : bool := (0 <=? k) && (k <? 4294967295).

Fixpoint insert_by_key (e : Z * ProductSales) (l : list (Z * ProductSales))
    : list (Z * ProductSales) :=
  match l with
  | [] => [e]
  | e' :: r => if fst e <? fst e' then e :: l else e' :: insert_by_key e r
  end.

Definition object_entries (m : list (Z * ProductSales)) : list (Z * ProductSales) :=
  fold_left (fun acc e => insert_by_key e acc)
    (filter (fun e => is_array_index (fst e)) m) []
  ++ filter (fun e => negb (is_array_index (fst e))) m.

(** [Array.prototype.sort] is stable; with the comparator
    [b.quantity - a.quantity] its result is the stable sort by quantity,
    largest first, computed here by insertion. *)
Fixpoint insert_by_quantity (e : Z * ProductSales) (l : list (Z * ProductSales))
    : list (Z * ProductSales) :=
  match l with
  | [] => [e]
  | e' :: r =>
      if ps_quantity (snd e') <? ps_quantity (snd e)
      then e :: l else e' :: insert_by_quantity e r
  end.

Definition sort_by_quantity (l : list (Z * ProductSales)) : list (Z * ProductSales) :=
  fold_left (fun acc e => insert_by_quantity e acc) l [].

Record TopProduct := mkTopProduct {
  tp_productId : Z;
  tp_productName : string;
  tp_quantity : Z;
  tp_total : float
}.

Definition top_products (sales : list Sale) : list TopProduct :=
  map (fun e => mkTopProduct (fst e) (ps_productName (snd e))
                  (ps_quantity (snd e)) (ps_total (snd e)))
    (firstn 10 (sort_by_quantity (object_entries (product_sales sales)))).

Record AnalyticsResult := mkAnalyticsResult {
  a_totalSales : float;
  a_totalTransactions : Z;
  a_salesByCategory : list (string * float);
  a_topProducts : list TopProduct
}.

Definition analytics_sales (sales : list Sale) (products : list Product)
    (categories : list Category) (startDate endDate : QueryDate) : AnalyticsResult :=
  let filteredSales := filter_sales startDate endDate sales in
  mkAnalyticsResult (total_sales filteredSales) (Z.of_nat (List.length filteredSales))
    (sales_by_category products categories filteredSales)
    (top_products filteredSales).

(** [true] when a string contains a decimal digit. *)
Fixpoint string_has_digit (s : string) : bool :=
  match s with
  | EmptyString => false
  | String c r =>
      let n := Ascii.nat_of_ascii c in
      (Nat.leb 48 n && Nat.leb n 57) || string_has_digit r
  end.

(** ** Sample data *)

Definition widget (price : float) (stock : Z) : Product :=
  mkProduct 1 "Widget" "W001" 1 price stock 0.

Definition cashier : User := mkUser 2 "cashier".

Definition cash_request (items : list CartLine) (discount tax : option float)
    : SaleRequest :=
  mkSaleRequest items "cash" None discount tax.

(** ** Commit: concrete runs *)

(** C1 (code_bug): two lines for product 1, each of quantity 2, against a
    stock of 3. Each line passes the per-line check, the sale is created and
    the stock becomes -1. *)
Theorem commit_duplicate_lines_drive_stock_negative :
  exists sale,
    post_sales all_writes_ok cashier 100
      (cash_request [mkCartLine 1 2; mkCartLine 1 2] None None)
      (mkDataFiles [widget 10.0%float 3] [])
    = (RCreated sale,
       mkDataFiles [mkProduct 1 "Widget" "W001" 1 10.0%float (-1) 100] [sale]).
Proof. eexists. vm_compute. reflexivity. Qed.

(** C2 (code_bug): the server accepts a request with no items: it answers
    201 and appends a sale with no items, while the Billing page refuses an
    empty cart before posting. *)
Theorem commit_empty_cart_appends_sale :
  billing_on_submit [] "" "cash" 0%float 0%float = None /\
  exists sale,
    post_sales all_writes_ok cashier 100 (cash_request [] None None)
      (mkDataFiles [widget 10.0%float 5] [])
    = (RCreated sale, mkDataFiles [widget 10.0%float 5] [sale])
    /\ s_items sale = [] /\ s_id sale = 1.
Proof. split; [reflexivity|]. eexists. vm_compute. split; [reflexivity | split; reflexivity]. Qed.

(** C3: the two halves of a commit are two separate, non-atomic writes of
    truncating [fs.writeFile] calls. A commit that passes the item loop
    answers 500 without writing when the id computation throws. Otherwise a
    failing products.json write answers 500 with sales.json untouched and
    products.json as [file_after] leaves it; a failing sales.json write after
    a successful products.json write answers 500 with the stock decrement
    persisted and sales.json as [file_after] leaves it; two successful writes
    answer 201. *)
Theorem commit_write_failures :
  forall wr user now rq fs subtotal saleItems,
    validate_sale_request rq = true ->
    price_items (products_json fs) (rq_items rq) 0%float [] = inr (subtotal, saleItems) ->
    let products' := update_stock (rq_items rq) now (products_json fs) in
    (spread_fits (max_call_args wr) (List.length (sales_json fs)) = false ->
     post_sales wr user now rq fs = (RServerError, fs)) /\
    (spread_fits (max_call_args wr) (List.length (sales_json fs)) = true ->
     exists sale,
       s_id sale = next_sale_id (sales_json fs) /\ s_items sale = saleItems /\
       post_sales wr user now rq fs =
         match products_write wr, sales_write wr with
         | WriteOk, WriteOk =>
             (RCreated sale, mkDataFiles products' (sales_json fs ++ [sale]))
         | WriteOk, w =>
             (RServerError,
              mkDataFiles products' (file_after w (sales_json fs) (sales_json fs ++ [sale])))
         | w, _ =>
             (RServerError,
              mkDataFiles (file_after w (products_json fs) products') (sales_json fs))
         end).
Proof.
  intros wr user now rq fs subtotal saleItems Hv Hp products'.
  unfold post_sales; rewrite Hv; cbn [negb]; rewrite Hp.
  split; intros Hs; rewrite Hs; cbn [negb]; [reflexivity |].
  eexists. split; [| split]; cycle 2.
  - unfold write_products, write_sales.
    destruct (products_write wr), (sales_write wr); reflexivity.
  - reflexivity.
  - reflexivity.
Qed.

(** The sales.json write fails after its truncating open. *)
Lemma commit_write_failures_witness :
  validate_sale_request (cash_request [mkCartLine 1 3] None None) = true /\
  price_items [widget 10.0%float 5] [mkCartLine 1 3] 0%float []
    = inr (30.0%float, [mkSaleItem 1 "Widget" "W001" 10.0%float 3 30.0%float]) /\
  spread_fits 65536 0 = true /\
  exists sale,
    post_sales (mkWriteOutcome WriteOk WritePartial 65536) cashier 100
      (cash_request [mkCartLine 1 3] None None) (mkDataFiles [widget 10.0%float 5] [])
    = (RServerError, mkDataFiles (update_stock [mkCartLine 1 3] 100 [widget 10.0%float 5])
                       (file_after WritePartial [] ([] ++ [sale]))).
Proof.
  split; [reflexivity | split; [vm_compute; reflexivity | split; [reflexivity |]]].
  destruct (proj2 (commit_write_failures (mkWriteOutcome WriteOk WritePartial 65536) cashier 100
    (cash_request [mkCartLine 1 3] None None) (mkDataFiles [widget 10.0%float 5] [])
    30.0%float [mkSaleItem 1 "Widget" "W001" 10.0%float 3 30.0%float]
    eq_refl (ltac:(vm_compute; reflexivity))) eq_refl) as [sale [_ [_ H]]].
  exists sale. exact H.
Defined.

(** C3 counterexample: stock 5, cart of 3, the products.json write succeeds
    and the sales.json write fails at its open: the answer is a 500,
    products.json holds stock 2 and sales.json holds no sale. *)
Lemma commit_partial_write_counterexample :
  post_sales (mkWriteOutcome WriteOk WriteOpenFailed 65536) cashier 100
    (cash_request [mkCartLine 1 3] None None) (mkDataFiles [widget 10.0%float 5] [])
  = (RServerError, mkDataFiles [mkProduct 1 "Widget" "W001" 1 10.0%float 2 100] []).
Proof. vm_compute. reflexivity. Qed.

(** C4: a line asking for 3 units of product 1 whose stock is 2 is refused
    with a 400 whose message names the product, and nothing is written. *)
Theorem insufficient_stock_rejected :
  forall wr user now rq fs p,
    validate_sale_request rq = true ->
    rq_items rq = [mkCartLine 1 3] ->
    find_product 1 (products_json fs) = Some p ->
    p_stock p = 2 ->
    post_sales wr user now rq fs
    = (RBadRequest (String.append "Insufficient stock for " (p_name p)), fs).
Proof.
  intros wr user now rq fs p Hv Hi Hf Hs.
  unfold post_sales; rewrite Hv; cbn [negb].
  rewrite Hi; cbn [price_items ci_productId ci_quantity]; rewrite Hf, Hs.
  reflexivity.
Qed.

Lemma insufficient_stock_rejected_witness :
  validate_sale_request (cash_request [mkCartLine 1 3] None None) = true /\
  find_product 1 [widget 10.0%float 2] = Some (widget 10.0%float 2) /\
  post_sales all_writes_ok cashier 100 (cash_request [mkCartLine 1 3] None None)
    (mkDataFiles [widget 10.0%float 2] [])
  = (RBadRequest "Insufficient stock for Widget", mkDataFiles [widget 10.0%float 2] []).
Proof.
  split; [reflexivity | split; [reflexivity |]].
  exact (insufficient_stock_rejected all_writes_ok cashier 100
           (cash_request [mkCartLine 1 3] None None)
           (mkDataFiles [widget 10.0%float 2] []) (widget 10.0%float 2)
           eq_refl eq_refl eq_refl eq_refl).
Defined.

(** C4 counterexample: the refusal carries no number at all, so neither the
    product id 1, the requested 3 nor the available 2. *)
Lemma insufficient_stock_message_counterexample :
  exists message,
    post_sales all_writes_ok cashier 100 (cash_request [mkCartLine 1 3] None None)
      (mkDataFiles [widget 10.0%float 2] [])
    = (RBadRequest message, mkDataFiles [widget 10.0%float 2] [])
    /\ string_has_digit message = false.
Proof. eexists. split; [vm_compute; reflexivity | reflexivity]. Qed.

(** C5, scenario A: one line of 3 units at 10.00, stock 5, discount 10%
    and tax 5% on the Billing page, then the commit. *)
Theorem scenario_a_pricing_and_commit :
  let cart := [cart_item_with_quantity (widget 10.0%float 5) 3] in
  let t := billing_totals cart 10%float 5%float in
  b_subtotal t = 30.00%float /\ b_discountAmount t = 3.00%float /\
  b_taxableAmount t = 27.00%float /\ b_taxAmount t = 1.35%float /\
  b_total t = 28.35%float /\
  exists rq sale fs',
    billing_on_submit cart "" "cash" 10%float 5%float = Some rq /\
    post_sales all_writes_ok cashier 100 rq (mkDataFiles [widget 10.0%float 5] [])
      = (RCreated sale, fs') /\
    s_subtotal sale = 30.00%float /\ s_discount sale = 3.00%float /\
    s_tax sale = 1.35%float /\ s_total sale = 28.35%float /\
    map p_stock (products_json fs') = [2].
Proof.
  vm_compute.
  do 5 (split; [reflexivity |]).
  do 3 eexists. split; [reflexivity |]. split; [reflexivity |].
  repeat split.
Qed.

(** C10: the server takes [discount] and [tax] as amounts checked only to
    be non-negative, records [total = subtotal - discount + tax] for every
    created sale, and so commits a sale with a negative total when the
    discount exceeds subtotal plus tax. *)
Theorem commit_total_from_amounts :
  (forall wr user now rq fs sale fs',
      post_sales wr user now rq fs = (RCreated sale, fs') ->
      validate_sale_request rq = true /\
      s_discount sale = match rq_discount rq with Some d => d | None => 0%float end /\
      s_tax sale = match rq_tax rq with Some x => x | None => 0%float end /\
      s_total sale = PrimFloat.add (PrimFloat.sub (s_subtotal sale) (s_discount sale))
                       (s_tax sale) /\
      sales_json fs' = sales_json fs ++ [sale]) /\
  (exists sale fs',
      validate_sale_request (cash_request [mkCartLine 1 1] (Some 100%float) None) = true /\
      post_sales all_writes_ok cashier 100
        (cash_request [mkCartLine 1 1] (Some 100%float) None)
        (mkDataFiles [widget 10.0%float 5] []) = (RCreated sale, fs') /\
      PrimFloat.ltb (PrimFloat.add (s_subtotal sale) (s_tax sale)) (s_discount sale) = true /\
      PrimFloat.ltb (s_total sale) 0%float = true /\
      sales_json fs' = [sale]).
Proof.
  split.
  - intros wr user now rq fs sale fs' H.
    unfold post_sales in H.
    destruct (validate_sale_request rq) eqn:Hv; cbn [negb] in H; [| discriminate].
    destruct (price_items _ _ _ _) as [m | [subtotal saleItems]]; [discriminate |].
    destruct (negb (spread_fits _ _)); [discriminate |].
    unfold write_products, write_sales in H.
    destruct (products_write wr); cbn [write_succeeds] in H; try discriminate.
    destruct (sales_write wr); cbn [write_succeeds] in H; try discriminate.
    injection H as <- <-. cbn. repeat split.
  - do 2 eexists. split; [reflexivity |]. split; [vm_compute; reflexivity |].
    vm_compute. repeat split.
Qed.

(** ** Analytics: filter, totals, dangling items *)

Definition float_sum (xs : list float) : float :=
  fold_left PrimFloat.add xs 0%float.

Lemma total_sales_as_sum_aux :
  forall sales acc,
    fold_left (fun sum sale => PrimFloat.add sum (s_total sale)) sales acc
    = fold_left PrimFloat.add (map s_total sales) acc.
Proof.
  induction sales as [| sale rest IH]; intros acc; cbn; [reflexivity | apply IH].
Qed.

(** C6: with both bounds supplied, the analytics keep exactly the sales
    whose [createdAt] lies in the closed interval; with a bound omitted they
    keep the whole history; [totalSales] is the sum of the kept totals and
    [totalTransactions] their number. *)
Theorem analytics_filter_and_totals :
  forall (sales : list Sale) (products : list Product) (categories : list Category),
    (forall s e sale,
        In sale (filter_sales (QDate s) (QDate e) sales)
        <-> In sale sales /\ s <= s_createdAt sale <= e) /\
    (forall q, filter_sales QAbsent q sales = sales /\ filter_sales q QAbsent sales = sales) /\
    (forall startDate endDate,
        let r := analytics_sales sales products categories startDate endDate in
        let filtered := filter_sales startDate endDate sales in
        a_totalSales r = float_sum (map s_total filtered) /\
        a_totalTransactions r = Z.of_nat (List.length filtered)).
Proof.
  intros sales products categories. split; [| split].
  - intros s e sale. unfold filter_sales; cbn [query_truthy andb].
    rewrite filter_In. cbn [date_ge date_le].
    rewrite andb_true_iff, !Z.leb_le. tauto.
  - intros q. unfold filter_sales; cbn [query_truthy andb].
    split; [reflexivity |]. destruct (query_truthy q); reflexivity.
  - intros startDate endDate. cbn zeta.
    split; [apply total_sales_as_sum_aux | reflexivity].
Qed.

(** The sale with the items whose product still exists. *)
Definition keep_resolved_items (products : list Product) (sale : Sale) : Sale :=
  mkSale (s_id sale)
    (filter (fun item => match find_product (si_productId item) products with
                         | Some _ => true | None => false end) (s_items sale))
    (s_subtotal sale) (s_discount sale) (s_tax sale) (s_total sale)
    (s_paymentMethod sale) (s_customerName sale) (s_cashierId sale)
    (s_cashierName sale) (s_createdAt sale).

Lemma fold_left_filter_skip :
  forall {A B : Type} (f : A -> B -> A) (keep : B -> bool) (l : list B) (a : A),
    (forall a' b, keep b = false -> f a' b = a') ->
    fold_left f (filter keep l) a = fold_left f l a.
Proof.
  intros A B f keep l. induction l as [| b rest IH]; intros a Hskip; cbn; [reflexivity |].
  destruct (keep b) eqn:Hk; cbn.
  - apply IH; exact Hskip.
  - rewrite (Hskip a b Hk). apply IH; exact Hskip.
Qed.

Lemma fold_left_map_ext :
  forall {A B C : Type} (f : A -> B -> A) (g : A -> C -> A) (h : C -> B) (l : list C) (a : A),
    (forall a' c, g a' c = f a' (h c)) ->
    fold_left g l a = fold_left f (map h l) a.
Proof.
  intros A B C f g h l. induction l as [| c rest IH]; intros a Hg; cbn; [reflexivity |].
  rewrite Hg. apply IH; exact Hg.
Qed.

(** C8: items whose product no longer exists contribute nothing to
    [salesByCategory] (dropping them changes nothing), and the analytics of
    an empty history are zero totals with empty mappings. *)
Theorem analytics_skip_dangling_and_empty :
  (forall products categories sales,
      sales_by_category products categories sales
      = sales_by_category products categories (map (keep_resolved_items products) sales)) /\
  (forall products categories startDate endDate,
      analytics_sales [] products categories startDate endDate
      = mkAnalyticsResult 0%float 0 [] []).
Proof.
  split.
  - intros products categories sales. unfold sales_by_category.
    apply (fold_left_map_ext _ _ (keep_resolved_items products)).
    intros m sale. cbn [s_items keep_resolved_items].
    symmetry. apply fold_left_filter_skip.
    intros m' item Hk. unfold category_step.
    destruct (find_product (si_productId item) products); [discriminate | reflexivity].
  - intros products categories startDate endDate.
    unfold analytics_sales, filter_sales.
    destruct (query_truthy startDate && query_truthy endDate); reflexivity.
Qed.

(** ** Sale identifiers *)

(** The identifier the spec prescribes: the largest existing id plus one,
    or 1 for an empty history. *)
Definition spec_next_sale_id (sales : list Sale) : Z :=
  match map s_id sales with
  | [] => 1
  | i :: r => fold_left Z.max r i + 1
  end.

(** Data files the server can reach: [initializeData] creates sales.json
    as [[]]; a sale commit is the only handler writing sales.json; the
    product handlers rewrite products.json only. *)
Inductive reachable : DataFiles -> Prop :=
| reach_init : forall ps, reachable (mkDataFiles ps [])
| reach_commit : forall wr user now rq fs r fs',
    reachable fs -> post_sales wr user now rq fs = (r, fs') -> reachable fs'
| reach_products : forall fs ps,
    reachable fs -> reachable (mkDataFiles ps (sales_json fs)).

Lemma post_sales_sales_effect :
  forall wr user now rq fs r fs',
    post_sales wr user now rq fs = (r, fs') ->
    sales_json fs' = sales_json fs \/ sales_json fs' = [] \/
    exists sale, sales_json fs' = sales_json fs ++ [sale]
                 /\ s_id sale = next_sale_id (sales_json fs).
Proof.
  intros wr user now rq fs r fs' H. unfold post_sales in H.
  destruct (validate_sale_request rq); cbn [negb] in H;
    [| injection H as _ <-; left; reflexivity].
  destruct (price_items _ _ _ _) as [m | [subtotal saleItems]];
    [injection H as _ <-; left; reflexivity |].
  destruct (negb (spread_fits _ _)); [injection H as _ <-; left; reflexivity |].
  unfold write_products, write_sales in H.
  destruct (products_write wr); cbn [write_succeeds] in H;
    [| injection H as _ <-; left; reflexivity ..].
  destruct (sales_write wr); cbn [write_succeeds] in H; injection H as _ <-;
    cbn [sales_json file_after].
  - right; right. eexists. split; reflexivity.
  - left; reflexivity.
  - right; left; reflexivity.
  - right; right. eexists. split; reflexivity.
Qed.

Lemma post_sales_created :
  forall wr user now rq fs sale fs',
    post_sales wr user now rq fs = (RCreated sale, fs') ->
    sales_json fs' = sales_json fs ++ [sale] /\ s_id sale = next_sale_id (sales_json fs).
Proof.
  intros wr user now rq fs sale fs' H. unfold post_sales in H.
  destruct (validate_sale_request rq); cbn [negb] in H; [| discriminate].
  destruct (price_items _ _ _ _) as [m | [subtotal saleItems]]; [discriminate |].
  destruct (negb (spread_fits _ _)); [discriminate |].
  unfold write_products, write_sales in H.
  destruct (products_write wr); cbn [write_succeeds] in H; try discriminate.
  destruct (sales_write wr); cbn [write_succeeds] in H; try discriminate.
  injection H as <- <-. split; reflexivity.
Qed.

Lemma fold_max_bounds :
  forall l a, a <= fold_left Z.max l a /\ Forall (fun x => x <= fold_left Z.max l a) l.
Proof.
  induction l as [| x rest IH]; intros a; cbn; [split; [lia | constructor] |].
  destruct (IH (Z.max a x)) as [H1 H2]. split; [lia |].
  constructor; [lia | exact H2].
Qed.

Lemma strongly_sorted_snoc :
  forall l x, StronglySorted Z.lt l -> Forall (fun y => y < x) l ->
              StronglySorted Z.lt (l ++ [x]).
Proof.
  induction l as [| y rest IH]; intros x Hs Hf; cbn.
  - repeat constructor.
  - inversion Hs as [| ? ? Hs' Hy]; subst. inversion Hf as [| ? ? Hyx Hf']; subst.
    constructor; [apply IH; assumption |].
    apply Forall_app; split; [exact Hy | constructor; [exact Hyx | constructor]].
Qed.

Definition ids_invariant (fs : DataFiles) : Prop :=
  StronglySorted Z.lt (map s_id (sales_json fs)) /\ Forall (Z.le 1) (map s_id (sales_json fs)).

Lemma next_sale_id_above :
  forall sales, Forall (fun i => i < next_sale_id sales) (map s_id sales) /\
                1 <= next_sale_id sales.
Proof.
  intros sales. unfold next_sale_id.
  destruct (fold_max_bounds (map s_id sales) 0) as [H1 H2]. split; [| lia].
  eapply Forall_impl; [| exact H2]. cbn. intros; lia.
Qed.

Lemma reachable_ids_invariant : forall fs, reachable fs -> ids_invariant fs.
Proof.
  intros fs Hr. induction Hr as [ps | wr user now rq fs r fs' _ IH Hp | fs ps _ IH].
  - split; constructor.
  - destruct IH as [Hs Hpos].
    destruct (post_sales_sales_effect _ _ _ _ _ _ _ Hp) as [Heq | [Heq | [sale [Heq Hid]]]];
      unfold ids_invariant; rewrite Heq; [split; assumption | split; constructor |].
    destruct (next_sale_id_above (sales_json fs)) as [Habove H1].
    rewrite map_app; cbn. split.
    + apply strongly_sorted_snoc; [exact Hs | rewrite Hid; exact Habove].
    + apply Forall_app; split; [exact Hpos | constructor; [lia | constructor]].
  - exact IH.
Qed.

Lemma next_sale_id_spec :
  forall sales, Forall (Z.le 1) (map s_id sales) ->
                next_sale_id sales = spec_next_sale_id sales.
Proof.
  intros sales Hpos. unfold next_sale_id, spec_next_sale_id.
  destruct (map s_id sales) as [| i r]; [reflexivity |].
  inversion Hpos; subst. cbn. f_equal. f_equal. lia.
Qed.

(** C9: in every reachable state, a committed sale gets the largest existing
    id plus one (1 on an empty history), above every existing id, and the ids
    of the history stay strictly increasing, hence pairwise distinct. *)
Theorem sale_ids_fresh_and_increasing :
  forall wr user now rq fs sale fs',
    reachable fs ->
    post_sales wr user now rq fs = (RCreated sale, fs') ->
    s_id sale = spec_next_sale_id (sales_json fs) /\
    Forall (fun i => i < s_id sale) (map s_id (sales_json fs)) /\
    StronglySorted Z.lt (map s_id (sales_json fs')) /\
    NoDup (map s_id (sales_json fs')).
Proof.
  intros wr user now rq fs sale fs' Hr Hp.
  destruct (reachable_ids_invariant fs Hr) as [Hs Hpos].
  destruct (reachable_ids_invariant fs' (reach_commit _ _ _ _ _ _ _ Hr Hp)) as [Hs' _].
  destruct (post_sales_created _ _ _ _ _ _ _ Hp) as [_ Hid].
  split; [rewrite Hid; apply next_sale_id_spec; exact Hpos |].
  split; [rewrite Hid; apply next_sale_id_above |].
  split; [exact Hs' |].
  clear -Hs'. induction Hs' as [| x l Hl IH Hx]; constructor; [| exact IH].
  intros Hin. rewrite Forall_forall in Hx. specialize (Hx x Hin). lia.
Qed.

Definition one_sale_files : DataFiles :=
  snd (post_sales all_writes_ok cashier 100 (cash_request [mkCartLine 1 1] None None)
         (mkDataFiles [widget 10.0%float 5] [])).

Lemma sale_ids_fresh_and_increasing_witness :
  match post_sales all_writes_ok cashier 200 (cash_request [mkCartLine 1 2] None None)
          one_sale_files with
  | (RCreated sale, fs') =>
      s_id sale = 2 /\ s_id sale = spec_next_sale_id (sales_json one_sale_files) /\
      StronglySorted Z.lt (map s_id (sales_json fs'))
  | _ => False
  end.
Proof.
  assert (Hr : reachable one_sale_files).
  { eapply reach_commit; [apply (reach_init [widget 10.0%float 5]) | apply surjective_pairing]. }
  destruct (post_sales all_writes_ok cashier 200 (cash_request [mkCartLine 1 2] None None)
              one_sale_files) as [r fs'] eqn:Hp.
  pose proof Hp as Hc. vm_compute in Hc. injection Hc as <- <-.
  destruct (sale_ids_fresh_and_increasing _ _ _ _ _ _ _ Hr Hp) as (H1 & _ & H3 & _).
  split; [reflexivity | split; [exact H1 | exact H3]].
Defined.

(** ** Analytics: the productSales accumulation *)

Section ProductSalesAccumulation.













End ProductSalesAccumulation.

(** ** Analytics: ordering of topProducts *)

Section TopProductsOrder.




Lemma fold_insert_perm :
  forall {A : Type} (ins : A -> list A -> list A),
    (forall e l, Permutation (ins e l) (e :: l)) ->
    forall l acc, Permutation (fold_left (fun acc e => ins e acc) l acc) (l ++ acc).
Proof.
  intros A ins Hins l. induction l as [| e r IH]; intros acc; cbn; [reflexivity |].
  rewrite IH, Hins. symmetry. apply Permutation_middle.
Qed.







Lemma sorted_firstn :
  forall {A : Type} (R : A -> A -> Prop) n l, Sorted R l -> Sorted R (firstn n l).
Proof.
  intros A R n. induction n as [| n IH]; intros l Hs; cbn; [constructor |].
  destruct l as [| x r]; [constructor |].
  inversion Hs as [| ? ? Hr Hh]; subst. constructor; [apply IH, Hr |].
  destruct n as [| n]; cbn; [constructor |].
  destruct r as [| y r']; cbn; constructor. inversion Hh; assumption.
Qed.




End TopProductsOrder.


(** ** Commit: further properties *)

Section CommitProperties.

(** The shape of every run of the handler. *)
Lemma post_sales_cases :
  forall wr user now rq fs r fs',
    post_sales wr user now rq fs = (r, fs') ->
    (r = RValidationError /\ fs' = fs /\ validate_sale_request rq = false) \/
    (exists m, r = RBadRequest m /\ fs' = fs /\ validate_sale_request rq = true /\
               price_items (products_json fs) (rq_items rq) 0%float [] = inl m) \/
    (exists subtotal saleItems,
        validate_sale_request rq = true /\
        price_items (products_json fs) (rq_items rq) 0%float [] = inr (subtotal, saleItems) /\
        let products' := update_stock (rq_items rq) now (products_json fs) in
        ((r = RServerError /\ fs' = fs) \/
         (r = RServerError /\ products_write wr <> WriteOk /\
          fs' = mkDataFiles (file_after (products_write wr) (products_json fs) products')
                  (sales_json fs)) \/
         (exists sale, r = RServerError /\ products_write wr = WriteOk /\
            sales_write wr <> WriteOk /\
            fs' = mkDataFiles products'
                    (file_after (sales_write wr) (sales_json fs) (sales_json fs ++ [sale]))) \/
         (exists sale, r = RCreated sale /\
            fs' = mkDataFiles products' (sales_json fs ++ [sale]) /\
            s_items sale = saleItems /\ s_subtotal sale = subtotal))).
Proof.
  intros wr user now rq fs r fs' H. unfold post_sales in H.
  destruct (validate_sale_request rq) eqn:Hv; cbn [negb] in H;
    [| injection H as <- <-; left; auto].
  right.
  destruct (price_items _ _ _ _) as [m | [subtotal saleItems]] eqn:Hp;
    [injection H as <- <-; left; exists m; auto |].
  right. exists subtotal, saleItems. split; [reflexivity | split; [reflexivity |]].
  destruct (negb (spread_fits _ _)); [injection H as <- <-; left; auto |].
  unfold write_products, write_sales in H.
  match type of H with context [app (sales_json fs) [?s]] => set (sale := s) in H end.
  destruct (products_write wr) eqn:Hw1; cbn [write_succeeds] in H;
    [| injection H as <- <-; right; left;
       split; [reflexivity | split; [discriminate | reflexivity]] ..].
  destruct (sales_write wr) eqn:Hw2; cbn [write_succeeds] in H; injection H as <- <-.
  - right; right; right. exists sale. repeat split.
  - right; right; left. exists sale.
    split; [reflexivity | split; [reflexivity | split; [discriminate | reflexivity]]].
  - right; right; left. exists sale.
    split; [reflexivity | split; [reflexivity | split; [discriminate | reflexivity]]].
  - right; right; left. exists sale.
    split; [reflexivity | split; [reflexivity | split; [discriminate | reflexivity]]].
Qed.

(** X1: a refused request (validation error or a 400 from the item loop)
    writes nothing. A 500 leaves sales.json as it was unless products.json
    holds the decremented stock; products.json is then as it was, read
    back as [[]], or decremented; otherwise sales.json is as it was, read
    back as [[]], or holds the old sales and one more. A 201 writes both
    files. *)
Theorem post_sales_failure_effects :
  forall wr user now rq fs r fs',
    post_sales wr user now rq fs = (r, fs') ->
    let products' := update_stock (rq_items rq) now (products_json fs) in
    match r with
    | RValidationError | RBadRequest _ => fs' = fs
    | RServerError =>
        (sales_json fs' = sales_json fs /\
         (products_json fs' = products_json fs \/ products_json fs' = [] \/
          products_json fs' = products')) \/
        (products_json fs' = products' /\
         (sales_json fs' = sales_json fs \/ sales_json fs' = [] \/
          exists sale, sales_json fs' = sales_json fs ++ [sale]))
    | RCreated sale => fs' = mkDataFiles products' (sales_json fs ++ [sale])
    end.
Proof.
  intros wr user now rq fs r fs' H products'.
  destruct (post_sales_cases _ _ _ _ _ _ _ H)
    as [[-> [-> _]] | [[m [-> [-> _]]] | [sub [items [_ [_ C]]]]]]; try reflexivity.
  destruct C as [[-> ->] | [[-> [_ ->]] | [[sale [-> [_ [_ ->]]]] | [sale [-> [-> _]]]]]].
  - left. split; [reflexivity | left; reflexivity].
  - left. split; [reflexivity |]. cbn [products_json].
    destruct (products_write wr); cbn [file_after]; auto.
  - right. split; [reflexivity |]. cbn [sales_json].
    destruct (sales_write wr); cbn [file_after]; eauto.
  - reflexivity.
Qed.

Lemma find_product_id :
  forall pid ps p, find_product pid ps = Some p -> p_id p = pid.
Proof.
  intros pid ps p. induction ps as [| q r IH]; cbn; [discriminate |].
  destruct (p_id q =? pid) eqn:H; [| exact IH].
  intros Heq; injection Heq as <-. apply Z.eqb_eq, H.
Qed.

(** The item loop, when it succeeds, prices each request line in order. *)
Lemma price_items_lines :
  forall products items subtotal acc subtotal' saleItems,
    price_items products items subtotal acc = inr (subtotal', saleItems) ->
    exists lines,
      saleItems = acc ++ lines /\
      Forall2 (fun item si => exists p,
                 find_product (ci_productId item) products = Some p /\
                 ci_quantity item <= p_stock p /\
                 si = mkSaleItem (ci_productId item) (p_name p) (p_sku p) (p_price p)
                        (ci_quantity item)
                        (PrimFloat.mul (p_price p) (float_of_Z (ci_quantity item))))
        items lines /\
      subtotal' = fold_left PrimFloat.add (map si_total lines) subtotal.
Proof.
  intros products items. induction items as [| item rest IH];
    intros subtotal acc subtotal' saleItems H; cbn in H.
  - injection H as <- <-. exists []. rewrite app_nil_r. auto.
  - destruct (find_product (ci_productId item) products) as [p |] eqn:Hf; [| discriminate].
    destruct (p_stock p <? ci_quantity item) eqn:Hs; [discriminate |].
    destruct (IH _ _ _ _ H) as [lines [Heq [Hf2 Hsum]]].
    eexists. split; [rewrite Heq, <- app_assoc; reflexivity |]. split.
    + constructor; [| exact Hf2]. exists p. split; [exact Hf |]. split; [apply Z.ltb_ge, Hs |].
      rewrite (find_product_id _ _ _ Hf). reflexivity.
    + exact Hsum.
Qed.

(** X2: a created sale has one line per request line, in order, carrying
    the line's product id and quantity, the product's current name, sku and
    price, and [price * quantity] as total; its subtotal is the sum of the
    line totals, and the product had enough stock for each line taken on
    its own. *)
Theorem created_sale_lines :
  forall wr user now rq fs sale fs',
    post_sales wr user now rq fs = (RCreated sale, fs') ->
    Forall2 (fun item si => exists p,
               find_product (ci_productId item) (products_json fs) = Some p /\
               ci_quantity item <= p_stock p /\
               si = mkSaleItem (ci_productId item) (p_name p) (p_sku p) (p_price p)
                      (ci_quantity item)
                      (PrimFloat.mul (p_price p) (float_of_Z (ci_quantity item))))
      (rq_items rq) (s_items sale) /\
    s_subtotal sale = fold_left PrimFloat.add (map si_total (s_items sale)) 0%float.
Proof.
  intros wr user now rq fs sale fs' H.
  destruct (post_sales_cases _ _ _ _ _ _ _ H)
    as [[Hr _] | [[m [Hr _]] | [sub [items [_ [Hp C]]]]]]; try discriminate.
  destruct C as [[Hr _] | [[Hr _] | [[s0 [Hr _]] | [sale' [Hr [_ [Hi Hs]]]]]]]; try discriminate.
  injection Hr as <-. rewrite Hi, Hs.
  destruct (price_items_lines _ _ _ _ _ _ Hp) as [lines [Heq [Hf2 Hsum]]].
  cbn [app] in Heq. rewrite Heq. split; [exact Hf2 | exact Hsum].
Qed.






End CommitProperties.

Section StockNonNegative.

Definition stock_nonneg (ps : list Product) : Prop := Forall (fun p => 0 <= p_stock p) ps.

Lemma find_decrement_other :
  forall k k' q now ps, k <> k' ->
    find_product k' (decrement_stock k q now ps) = find_product k' ps.
Proof.
  intros k k' q now ps Hne. induction ps as [| p r IH]; cbn; [reflexivity |].
  destruct (p_id p =? k) eqn:H1; cbn.
  - apply Z.eqb_eq in H1. destruct (p_id p =? k') eqn:H2; [| reflexivity].
    apply Z.eqb_eq in H2. congruence.
  - destruct (p_id p =? k'); [reflexivity | exact IH].
Qed.

Lemma decrement_nonneg :
  forall k q now ps,
    stock_nonneg ps ->
    (forall p, find_product k ps = Some p -> q <= p_stock p) ->
    stock_nonneg (decrement_stock k q now ps).
Proof.
  intros k q now ps. induction ps as [| p r IH]; intros Hn Hq; cbn; [constructor |].
  inversion Hn as [| ? ? Hp Hr]; subst.
  cbn in Hq. destruct (p_id p =? k) eqn:H1.
  - constructor; [cbn; specialize (Hq p eq_refl); lia | exact Hr].
  - constructor; [exact Hp | apply IH; assumption].
Qed.

Lemma update_nonneg :
  forall items now ps,
    NoDup (map ci_productId items) ->
    stock_nonneg ps ->
    Forall (fun it => exists p, find_product (ci_productId it) ps = Some p /\
                                ci_quantity it <= p_stock p) items ->
    stock_nonneg (update_stock items now ps).
Proof.
  unfold update_stock. induction items as [| it r IH]; intros now ps Hnd Hn Hf; cbn; [exact Hn |].
  inversion Hnd as [| ? ? Hnin Hnd']; subst. inversion Hf as [| ? ? [p [Hfp Hqp]] Hf']; subst.
  apply IH; [exact Hnd' | |].
  - apply decrement_nonneg; [exact Hn |]. intros p' Hp'. rewrite Hfp in Hp'. injection Hp' as <-. exact Hqp.
  - eapply Forall_impl; [| apply Forall_forall; intros it' Hin; exact (conj Hin (proj1 (Forall_forall _ _) Hf' it' Hin))].
    intros it' [Hin [p' [Hfp' Hq']]]. exists p'. split; [| exact Hq'].
    rewrite find_decrement_other; [exact Hfp' |].
    intros Heq. apply Hnin. rewrite Heq. apply in_map, Hin.
Qed.

Lemma forall2_left :
  forall {A B : Type} (P : A -> B -> Prop) l1 l2,
    Forall2 P l1 l2 -> Forall (fun x => exists y, P x y) l1.
Proof.
  intros A B P l1 l2 H. induction H; constructor; [eexists; eassumption | assumption].
Qed.

(** X4: a created sale whose request names each product id at most once
    leaves every stock non-negative when every stock was. *)
Theorem created_sale_distinct_ids_stock_nonneg :
  forall wr user now rq fs sale fs',
    post_sales wr user now rq fs = (RCreated sale, fs') ->
    NoDup (map ci_productId (rq_items rq)) ->
    stock_nonneg (products_json fs) ->
    stock_nonneg (products_json fs').
Proof.
  intros wr user now rq fs sale fs' H Hnd Hn.
  destruct (post_sales_cases _ _ _ _ _ _ _ H)
    as [[Hr _] | [[m [Hr _]] | [sub [items [_ [Hp C]]]]]]; try discriminate.
  destruct C as [[Hr _] | [[Hr _] | [[s0 [Hr _]] | [sale' [_ [-> _]]]]]]; try discriminate.
  cbn [products_json]. apply update_nonneg; [exact Hnd | exact Hn |].
  destruct (price_items_lines _ _ _ _ _ _ Hp) as [lines [_ [Hf2 _]]].
  eapply Forall_impl; [| exact (forall2_left _ _ _ Hf2)].
  intros it [si [p [Hf [Hq _]]]]. exists p. auto.
Qed.

End StockNonNegative.

(** ** Product routes: POST, PUT and DELETE /api/products *)

(** [req.body] of the product routes. [description] is optional and only
    stored; like [reorderPoint] it is not a field of [Product] here, and
    no property below reads it. *)
Record ProductBody := mkProductBody {
  pb_name : string;
  pb_sku : string;
  pb_categoryId : Z;
  pb_price : float;
  pb_stock : Z;
  pb_reorderPoint : Z
}.

Inductive CrudResponse :=
| CValidationError                  (* 400 with [errors.array()] *)
| CBadRequest (message : string)    (* 400 with [{ message }] *)
| CNotFound (message : string)      (* 404 *)
| CCreated (p : Product)            (* 201 with the new product *)
| COk (p : Product)                 (* 200 with the updated product *)
| CDeleted (message : string)       (* 200 with [{ message }] *)
| CServerError.                     (* 500 'Server error' *)

(** The express-validator chain shared by POST and PUT. *)
Definition validate_product_body (b : ProductBody) : bool :=
  negb (String.eqb (pb_name b) EmptyString)
  && negb (String.eqb (pb_sku b) EmptyString)
  && PrimFloat.leb 0%float (pb_price b)
  && (0 <=? pb_stock b)
  && (0 <=? pb_reorderPoint b).

(** [Math.max(...products.map(p => p.id), 0) + 1], when the call does not
    throw; [post_products] checks [spread_fits] first. *)
Definition next_product_id (ps : list Product) : Z :=
  fold_left Z.max (map p_id ps) 0 + 1.

(** POST /api/products. [w] is the outcome of [writeDataFile]; the
    handler answers with the product list as read back afterwards.
    [max_args] is the engine's call-argument limit, which the spread in
    [Math.max(...products.map(p => p.id), 0)] may exceed (a RangeError,
    answered 500 before any write). *)
Definition post_products (w : WriteResult) (max_args : Z) (now : Z) (b : ProductBody)
    (ps : list Product) : CrudResponse * list Product :=
  if negb (validate_product_body b) then (CValidationError, ps) else
  if existsb (fun p => String.eqb (p_sku p) (pb_sku b)) ps
  then (CBadRequest "SKU already exists", ps) else
  if negb (spread_fits max_args (List.length ps)) then (CServerError, ps) else
  let newProduct := mkProduct (next_product_id ps) (pb_name b) (pb_sku b)
                      (pb_categoryId b) (pb_price b) (pb_stock b) now in
  if write_succeeds w then (CCreated newProduct, ps ++ [newProduct])
  else (CServerError, file_after w ps (ps ++ [newProduct])).

(** [products[products.findIndex(p => p.id === pid)] = np] *)
Fixpoint replace_first_id (pid : Z) (np : Product) (ps : list Product) : list Product :=
  match ps with
  | [] => []
  | p :: r => if p_id p =? pid then np :: r else p :: replace_first_id pid np r
  end.

(** PUT /api/products/:id; the spread keeps the stored [id]. *)
Definition put_products (w : WriteResult) (now pid : Z) (b : ProductBody)
    (ps : list Product) : CrudResponse * list Product :=
  if negb (validate_product_body b) then (CValidationError, ps) else
  match find_product pid ps with
  | None => (CNotFound "Product not found", ps)
  | Some old =>
      if existsb (fun p => String.eqb (p_sku p) (pb_sku b) && negb (p_id p =? pid)) ps
      then (CBadRequest "SKU already exists", ps) else
      let updated := mkProduct (p_id old) (pb_name b) (pb_sku b) (pb_categoryId b)
                       (pb_price b) (pb_stock b) now in
      if write_succeeds w then (COk updated, replace_first_id pid updated ps)
      else (CServerError, file_after w ps (replace_first_id pid updated ps))
  end.

(** DELETE /api/products/:id *)
Definition delete_products (w : WriteResult) (pid : Z) (ps : list Product)
    : CrudResponse * list Product :=
  let filtered := filter (fun p => negb (p_id p =? pid)) ps in
  if Nat.eqb (List.length filtered) (List.length ps)
  then (CNotFound "Product not found", ps) else
  if write_succeeds w then (CDeleted "Product deleted successfully", filtered)
  else (CServerError, file_after w ps filtered).

Section CatalogInvariant.

(** Product ids and skus pairwise distinct, stocks non-negative. *)
Definition catalog_ok (ps : list Product) : Prop :=
  NoDup (map p_id ps) /\ NoDup (map p_sku ps) /\ stock_nonneg ps.

Lemma file_after_cases :
  forall {A : Type} w (old data : list A),
    file_after w old data = old \/ file_after w old data = [] \/ file_after w old data = data.
Proof. intros A w old data. destruct w; cbn; auto. Qed.

Lemma catalog_ok_nil : catalog_ok [].
Proof. split; [constructor | split; constructor]. Qed.

Lemma nodup_snoc :
  forall {A : Type} (l : list A) x, NoDup l -> ~ In x l -> NoDup (l ++ [x]).
Proof.
  intros A l x. induction l as [| y r IH]; intros Hnd Hnin; cbn; [repeat constructor; intros [] |].
  inversion Hnd as [| ? ? Hy Hr]; subst. constructor.
  - rewrite in_app_iff. intros [Hin | [Heq | []]]; [exact (Hy Hin) | apply Hnin; left; symmetry; exact Heq].
  - apply IH; [exact Hr | intros Hin; apply Hnin; right; exact Hin].
Qed.

Lemma validate_product_body_spec :
  forall b, validate_product_body b = true -> 0 <= pb_stock b.
Proof.
  intros b H. unfold validate_product_body in H.
  repeat rewrite andb_true_iff in H. destruct H as [[_ Hs] _]. apply Z.leb_le, Hs.
Qed.

Lemma existsb_sku_false :
  forall s ps, existsb (fun p => String.eqb (p_sku p) s) ps = false -> ~ In s (map p_sku ps).
Proof.
  intros s ps H Hin. apply in_map_iff in Hin. destruct Hin as [p [Hs Hin]].
  assert (Hx : existsb (fun p => String.eqb (p_sku p) s) ps = true).
  { apply existsb_exists. exists p. split; [exact Hin | apply String.eqb_eq, Hs]. }
  congruence.
Qed.

(** X5: POST /api/products keeps ids and skus distinct and stocks
    non-negative. A created product gets an id above every existing one and
    is appended. A 500 leaves the list as it was, read back as [[]], or with
    that product appended; every other answer leaves it as it was. *)
Theorem post_products_keeps_catalog :
  forall w max_args now b ps r ps',
    catalog_ok ps ->
    post_products w max_args now b ps = (r, ps') ->
    catalog_ok ps' /\
    match r with
    | CCreated p => ps' = ps ++ [p] /\ Forall (fun i => i < p_id p) (map p_id ps)
    | CServerError =>
        ps' = ps \/ ps' = [] \/
        exists p, ps' = ps ++ [p] /\ Forall (fun i => i < p_id p) (map p_id ps)
    | _ => ps' = ps
    end.
Proof.
  intros w max_args now b ps r ps' Hok H. pose proof Hok as [Hid [Hsku Hst]].
  unfold post_products in H.
  destruct (validate_product_body b) eqn:Hv; cbn [negb] in H;
    [| injection H as <- <-; split; [exact Hok | reflexivity]].
  destruct (existsb _ ps) eqn:He; [injection H as <- <-; split; [exact Hok | reflexivity] |].
  destruct (negb (spread_fits _ _)); [injection H as <- <-; split; [exact Hok | left; reflexivity] |].
  set (np := mkProduct _ _ _ _ _ _ _) in H.
  assert (Habove : Forall (fun i => i < p_id np) (map p_id ps)).
  { cbn. unfold next_product_id. destruct (fold_max_bounds (map p_id ps) 0) as [_ H2].
    eapply Forall_impl; [| exact H2]. cbn. intros; lia. }
  assert (Hnew : catalog_ok (ps ++ [np])).
  { split; [| split].
    - rewrite map_app. apply nodup_snoc; [exact Hid |].
      intros Hin. rewrite Forall_forall in Habove. specialize (Habove _ Hin). lia.
    - rewrite map_app. apply nodup_snoc; [exact Hsku | apply existsb_sku_false, He].
    - apply Forall_app. split; [exact Hst | constructor; [| constructor]].
      cbn. apply validate_product_body_spec, Hv. }
  destruct (write_succeeds w); injection H as <- <-;
    [split; [exact Hnew | split; [reflexivity | exact Habove]] |].
  destruct (file_after_cases w ps (ps ++ [np])) as [-> | [-> | ->]].
  - split; [exact Hok | left; reflexivity].
  - split; [exact catalog_ok_nil | right; left; reflexivity].
  - split; [exact Hnew | right; right; exists np; split; [reflexivity | exact Habove]].
Qed.

Lemma replace_first_id_ids :
  forall pid np ps, p_id np = pid -> map p_id (replace_first_id pid np ps) = map p_id ps.
Proof.
  intros pid np ps Hnp. induction ps as [| p r IH]; cbn; [reflexivity |].
  destruct (p_id p =? pid) eqn:H; cbn.
  - apply Z.eqb_eq in H. rewrite Hnp, H. reflexivity.
  - rewrite IH. reflexivity.
Qed.

Lemma in_replace_first_id :
  forall pid np ps x, In x (replace_first_id pid np ps) -> In x ps \/ x = np.
Proof.
  intros pid np ps x. induction ps as [| p r IH]; cbn; [intros [] |].
  destruct (p_id p =? pid); cbn; intros [Heq | Hin].
  - right. symmetry. exact Heq.
  - left. right. exact Hin.
  - left. left. exact Heq.
  - destruct (IH Hin) as [H | H]; [left; right; exact H | right; exact H].
Qed.

Lemma replace_first_id_skus :
  forall pid np ps,
    NoDup (map p_id ps) -> NoDup (map p_sku ps) ->
    (forall q, In q ps -> p_sku q = p_sku np -> p_id q = pid) ->
    NoDup (map p_sku (replace_first_id pid np ps)).
Proof.
  intros pid np ps. induction ps as [| p r IH]; intros Hid Hsku Hq; cbn; [constructor |].
  inversion Hid as [| ? ? Hidp Hidr]; subst. inversion Hsku as [| ? ? Hskp Hskr]; subst.
  destruct (p_id p =? pid) eqn:H; cbn.
  - apply Z.eqb_eq in H. constructor; [| exact Hskr].
    intros Hin. apply in_map_iff in Hin. destruct Hin as [q [Hs Hin]].
    apply Hidp. rewrite H, <- (Hq q (or_intror Hin) Hs). apply in_map, Hin.
  - constructor.
    + intros Hin. apply in_map_iff in Hin. destruct Hin as [q [Hs Hin]].
      destruct (in_replace_first_id _ _ _ _ Hin) as [Hq' | ->].
      * apply Hskp. rewrite <- Hs. apply in_map, Hq'.
      * rewrite (Hq p (or_introl eq_refl) (eq_sym Hs)), Z.eqb_refl in H. discriminate.
    + apply IH; [exact Hidr | exact Hskr | intros q Hin; apply Hq; right; exact Hin].
Qed.

(** X6: PUT /api/products/:id keeps ids and skus distinct and stocks
    non-negative; the product ids, in order, stay as they were, unless a
    500 leaves the list read back as [[]]. *)
Theorem put_products_keeps_catalog :
  forall w now pid b ps r ps',
    catalog_ok ps ->
    put_products w now pid b ps = (r, ps') ->
    catalog_ok ps' /\ (map p_id ps' = map p_id ps \/ (r = CServerError /\ ps' = [])).
Proof.
  intros w now pid b ps r ps' Hok H. pose proof Hok as [Hid [Hsku Hst]].
  unfold put_products in H.
  destruct (validate_product_body b) eqn:Hv; cbn [negb] in H;
    [| injection H as <- <-; split; [exact Hok | left; reflexivity]].
  destruct (find_product pid ps) as [old |] eqn:Hf;
    [| injection H as <- <-; split; [exact Hok | left; reflexivity]].
  destruct (existsb _ ps) eqn:He;
    [injection H as <- <-; split; [exact Hok | left; reflexivity] |].
  set (np := mkProduct _ _ _ _ _ _ _) in H.
  assert (Hnp : p_id np = pid) by exact (find_product_id _ _ _ Hf).
  assert (Hnew : catalog_ok (replace_first_id pid np ps) /\
                 map p_id (replace_first_id pid np ps) = map p_id ps).
  { split; [split; [| split] | apply replace_first_id_ids, Hnp].
    - rewrite replace_first_id_ids by exact Hnp. exact Hid.
    - apply replace_first_id_skus; [exact Hid | exact Hsku |].
      intros q Hin Hs. destruct (Z.eq_dec (p_id q) pid) as [Heq | Hne]; [exact Heq |].
      exfalso. assert (Hx : existsb (fun p => String.eqb (p_sku p) (pb_sku b)
                                               && negb (p_id p =? pid)) ps = true).
      { apply existsb_exists. exists q. split; [exact Hin |].
        rewrite andb_true_iff. split; [apply String.eqb_eq, Hs |].
        apply negb_true_iff, Z.eqb_neq, Hne. }
      congruence.
    - unfold stock_nonneg. apply Forall_forall. intros x Hin.
      destruct (in_replace_first_id _ _ _ _ Hin) as [Hx | ->].
      + exact (proj1 (Forall_forall _ _) Hst x Hx).
      + cbn. apply validate_product_body_spec, Hv. }
  destruct (write_succeeds w); injection H as <- <-;
    [exact (conj (proj1 Hnew) (or_introl (proj2 Hnew))) |].
  destruct (file_after_cases w ps (replace_first_id pid np ps)) as [-> | [-> | ->]].
  - split; [exact Hok | left; reflexivity].
  - split; [exact catalog_ok_nil | right; split; reflexivity].
  - exact (conj (proj1 Hnew) (or_introl (proj2 Hnew))).
Qed.

Lemma nodup_map_filter :
  forall {A B : Type} (f : A -> B) (keep : A -> bool) l,
    NoDup (map f l) -> NoDup (map f (filter keep l)).
Proof.
  intros A B f keep l. induction l as [| x r IH]; intros Hnd; cbn; [constructor |].
  inversion Hnd as [| ? ? Hx Hr]; subst.
  destruct (keep x); cbn; [| apply IH, Hr].
  constructor; [| apply IH, Hr].
  intros Hin. apply Hx. apply in_map_iff in Hin. destruct Hin as [y [Hy Hin]].
  rewrite <- Hy. apply in_map. apply filter_In in Hin. exact (proj1 Hin).
Qed.

(** X7: DELETE /api/products/:id keeps the catalog invariant; a 404 is
    answered exactly when no product has the id, and a deletion removes
    every product with that id and keeps the others in order. *)
Theorem delete_products_keeps_catalog :
  forall w pid ps r ps',
    catalog_ok ps ->
    delete_products w pid ps = (r, ps') ->
    catalog_ok ps' /\
    (r = CNotFound "Product not found" <-> find_product pid ps = None) /\
    (forall m, r = CDeleted m -> ps' = filter (fun p => negb (p_id p =? pid)) ps).
Proof.
  intros w pid ps r ps' Hok H. pose proof Hok as [Hid [Hsku Hst]].
  unfold delete_products in H.
  assert (Hfilt : catalog_ok (filter (fun p => negb (p_id p =? pid)) ps)).
  { split; [| split].
    - apply nodup_map_filter, Hid.
    - apply nodup_map_filter, Hsku.
    - unfold stock_nonneg. apply Forall_forall. intros x Hin. apply filter_In in Hin.
      exact (proj1 (Forall_forall _ _) Hst x (proj1 Hin)). }
  assert (Hlen : Nat.eqb (List.length (filter (fun p => negb (p_id p =? pid)) ps))
                   (List.length ps) = true <-> find_product pid ps = None).
  { clear. induction ps as [| p r IH]; cbn; [tauto |].
    destruct (p_id p =? pid); cbn.
    - split; [| discriminate]. intros Hl. apply Nat.eqb_eq in Hl.
      assert (Hle : forall l : list Product,
                 Nat.le (List.length (filter (fun p => negb (p_id p =? pid)) l)) (List.length l)).
      { induction l as [| x l' IHl]; cbn; [lia | destruct (negb _); cbn; lia]. }
      specialize (Hle r). lia.
    - exact IH. }
  destruct (Nat.eqb _ _) eqn:Heq.
  - injection H as <- <-. split; [split; auto |]. split; [tauto | discriminate].
  - destruct (write_succeeds w); injection H as <- <-.
    + split; [exact Hfilt |].
      split; [split; [discriminate | intros Hn; apply Hlen in Hn; discriminate] |].
      intros m _. reflexivity.
    + split.
      * destruct (file_after_cases w ps (filter (fun p => negb (p_id p =? pid)) ps))
          as [-> | [-> | ->]]; [exact Hok | exact catalog_ok_nil | exact Hfilt].
      * split; [split; [discriminate | intros Hn; apply Hlen in Hn; discriminate] | discriminate].
Qed.

End CatalogInvariant.

(** ** DELETE /api/categories/:id *)

(** The handler reads categories.json and products.json and rewrites
    categories.json only. *)
Definition delete_categories (w : WriteResult) (cid : Z) (cats : list Category)
    (ps : list Product) : CrudResponse * list Category :=
  if existsb (fun p => p_categoryId p =? cid) ps
  then (CBadRequest "Cannot delete category with existing products", cats) else
  let filtered := filter (fun c => negb (c_id c =? cid)) cats in
  if Nat.eqb (List.length filtered) (List.length cats)
  then (CNotFound "Category not found", cats) else
  if write_succeeds w then (CDeleted "Category deleted successfully", filtered)
  else (CServerError, file_after w cats filtered).

(** Every product's [categoryId] names a category. *)
Definition categories_resolved (ps : list Product) (cats : list Category) : Prop :=
  Forall (fun p => exists c, find_category (p_categoryId p) cats = Some c) ps.

Lemma find_category_filter_other :
  forall k cid cats, k <> cid ->
    find_category k (filter (fun c => negb (c_id c =? cid)) cats) = find_category k cats.
Proof.
  intros k cid cats Hne. induction cats as [| c r IH]; cbn; [reflexivity |].
  destruct (c_id c =? cid) eqn:H1; cbn.
  - apply Z.eqb_eq in H1. destruct (c_id c =? k) eqn:H2; [| exact IH].
    apply Z.eqb_eq in H2. congruence.
  - destruct (c_id c =? k); [reflexivity | exact IH].
Qed.

(** X8: deleting a category is refused (400) exactly when some product
    still refers to it, and when every product's category resolved before,
    it still does afterwards, unless a 500 leaves categories.json read back
    as [[]]. *)
Theorem delete_categories_keeps_references :
  forall w cid cats ps r cats',
    delete_categories w cid cats ps = (r, cats') ->
    (r = CBadRequest "Cannot delete category with existing products"
     <-> exists p, In p ps /\ p_categoryId p = cid) /\
    (categories_resolved ps cats ->
     categories_resolved ps cats' \/ (r = CServerError /\ cats' = [])).
Proof.
  intros w cid cats ps r cats' H. unfold delete_categories in H.
  destruct (existsb (fun p => p_categoryId p =? cid) ps) eqn:He.
  - injection H as <- <-. split; [| tauto].
    split; [intros _ | reflexivity].
    apply existsb_exists in He. destruct He as [p [Hin Hp]]. exists p. split; [exact Hin | apply Z.eqb_eq, Hp].
  - assert (Hno : forall p, In p ps -> p_categoryId p <> cid).
    { intros p Hin Heq. assert (Hx : existsb (fun p => p_categoryId p =? cid) ps = true).
      { apply existsb_exists. exists p. split; [exact Hin | apply Z.eqb_eq, Heq]. }
      congruence. }
    assert (Hkeep : categories_resolved ps cats ->
                    categories_resolved ps (filter (fun c => negb (c_id c =? cid)) cats)).
    { unfold categories_resolved. intros Hr. apply Forall_forall. intros p Hin.
      rewrite find_category_filter_other by exact (Hno p Hin).
      exact (proj1 (Forall_forall _ _) Hr p Hin). }
    split.
    + split; [| intros [p [Hin Heq]]; exfalso; exact (Hno p Hin Heq)].
      intros Hr. exfalso. destruct (Nat.eqb _ _); [| destruct (write_succeeds w)];
        injection H as <- _; discriminate.
    + destruct (Nat.eqb _ _); [injection H as _ <-; tauto |].
      destruct (write_succeeds w); injection H as Hr <-; [intros Hc; left; exact (Hkeep Hc) |].
      destruct (file_after_cases w cats (filter (fun c => negb (c_id c =? cid)) cats))
        as [-> | [-> | ->]]; intros Hc.
      * left. exact Hc.
      * right. split; [symmetry; exact Hr | reflexivity].
      * left. exact (Hkeep Hc).
Qed.

(** ** GET /api/dashboard/stats: recentSales *)

(** [sales.sort((a, b) => new Date(b.createdAt) - new Date(a.createdAt))]:
    the stable sort by [createdAt], most recent first. *)
Fixpoint insert_by_created (s : Sale) (l : list Sale) : list Sale :=
  match l with
  | [] => [s]
  | s' :: r => if s_createdAt s' <? s_createdAt s then s :: l
               else s' :: insert_by_created s r
  end.

Definition sort_by_created_desc (sales : list Sale) : list Sale :=
  fold_left (fun acc s => insert_by_created s acc) sales [].

(** [.slice(0, 10)] *)
Definition recent_sales (sales : list Sale) : list Sale :=
  firstn 10 (sort_by_created_desc sales).

Section RecentSales.

Definition created_desc (a b : Sale) : Prop := s_createdAt b <= s_createdAt a.

Lemma insert_by_created_perm : forall s l, Permutation (insert_by_created s l) (s :: l).
Proof.
  intros s l. induction l as [| s' r IH]; cbn; [reflexivity |].
  destruct (s_createdAt s' <? s_createdAt s); [reflexivity |].
  rewrite IH. apply perm_swap.
Qed.

Lemma insert_by_created_sorted :
  forall s l, Sorted created_desc l -> Sorted created_desc (insert_by_created s l).
Proof.
  intros s l. induction l as [| s' r IH]; intros Hs; cbn; [repeat constructor |].
  inversion Hs as [| ? ? Hr Hh]; subst.
  destruct (s_createdAt s' <? s_createdAt s) eqn:Hlt.
  - constructor; [exact Hs | constructor; unfold created_desc; apply Z.ltb_lt in Hlt; lia].
  - constructor; [apply IH, Hr |]. apply Z.ltb_ge in Hlt.
    destruct r as [| s'' r']; cbn; [constructor; unfold created_desc; lia |].
    destruct (s_createdAt s'' <? s_createdAt s); constructor;
      [unfold created_desc; lia | inversion Hh; assumption].
Qed.

Lemma sort_by_created_props :
  forall sales, Permutation (sort_by_created_desc sales) sales /\
                Sorted created_desc (sort_by_created_desc sales).
Proof.
  intros sales. unfold sort_by_created_desc. split.
  - rewrite (fold_insert_perm insert_by_created insert_by_created_perm), app_nil_r. reflexivity.
  - assert (Hgen : forall l acc, Sorted created_desc acc ->
              Sorted created_desc (fold_left (fun acc s => insert_by_created s acc) l acc)).
    { induction l as [| s r IH]; intros acc Hacc; cbn; [exact Hacc |].
      apply IH, insert_by_created_sorted, Hacc. }
    apply Hgen. constructor.
Qed.

Lemma strongly_sorted_app_split :
  forall {A : Type} (R : A -> A -> Prop) l1 l2,
    StronglySorted R (l1 ++ l2) -> forall x y, In x l1 -> In y l2 -> R x y.
Proof.
  intros A R l1 l2. induction l1 as [| a r IH]; intros Hs x y Hx Hy; [destruct Hx |].
  cbn in Hs. inversion Hs as [| ? ? Hs' Ha]; subst.
  destruct Hx as [<- | Hx].
  - rewrite Forall_forall in Ha. apply Ha, in_or_app. right. exact Hy.
  - exact (IH Hs' x y Hx Hy).
Qed.

(** X9: [recentSales] lists at most 10 sales of the history, most recent
    first, and every sale of the history is either listed or no more recent
    than any listed one (the listed sales and the rest together are the
    history, with multiplicities). *)
Theorem recent_sales_top10 :
  forall sales,
    let listed := recent_sales sales in
    let rest := skipn 10 (sort_by_created_desc sales) in
    (List.length listed <= 10)%nat /\
    Sorted created_desc listed /\
    Permutation (listed ++ rest) sales /\
    (forall x y, In x rest -> In y listed -> s_createdAt x <= s_createdAt y).
Proof.
  intros sales listed rest.
  destruct (sort_by_created_props sales) as [Hperm Hsorted].
  split; [apply firstn_le_length |].
  split; [apply sorted_firstn, Hsorted |].
  split; [unfold listed, rest, recent_sales; rewrite firstn_skipn; exact Hperm |].
  intros x y Hx Hy.
  assert (Hss : StronglySorted created_desc (listed ++ rest)).
  { unfold listed, rest, recent_sales. rewrite firstn_skipn.
    apply Sorted_StronglySorted; [| exact Hsorted].
    unfold Relations_1.Transitive, created_desc. intros; lia. }
  exact (strongly_sorted_app_split _ _ _ Hss y x Hy Hx).
Qed.

End RecentSales.

(** ** Billing page: cart operations *)

(** [cart.find(item => item.productId === pid)] *)
Fixpoint find_cart_item (pid : Z) (cart : list CartItem) : option CartItem :=
  match cart with
  | [] => None
  | item :: r => if ct_productId item =? pid then Some item else find_cart_item pid r
  end.

(** The entry with a new quantity and [total: quantity * item.price]. *)
Definition with_quantity (item : CartItem) (quantity : Z) : CartItem :=
  mkCartItem (ct_productId item) (ct_productName item) (ct_sku item) (ct_price item)
    quantity (PrimFloat.mul (float_of_Z quantity) (ct_price item)).

(** [addToCart(product)]; a refusal only shows a toast. *)
Definition add_to_cart (cart : list CartItem) (product : Product) : list CartItem :=
  match find_cart_item (p_id product) cart with
  | Some existingItem =>
      if p_stock product <=? ct_quantity existingItem then cart
      else map (fun item => if ct_productId item =? p_id product
                            then with_quantity item (ct_quantity item + 1) else item) cart
  | None =>
      if p_stock product <=? 0 then cart
      else cart ++ [mkCartItem (p_id product) (p_name product) (p_sku product)
                      (p_price product) 1 (p_price product)]
  end.

(** [updateQuantity(productId, change)] *)
Definition update_quantity (productsData : list Product) (cart : list CartItem)
    (productId change : Z) : list CartItem :=
  match find_product productId productsData with
  | None => cart
  | Some product =>
      map (fun item =>
             if ct_productId item =? productId then
               let newQuantity := ct_quantity item + change in
               if newQuantity <=? 0 then item
               else if p_stock product <? newQuantity then item
               else with_quantity item newQuantity
             else item) cart
  end.

(** [setQuantity(productId, quantity)] *)
Definition set_quantity (productsData : list Product) (cart : list CartItem)
    (productId quantity : Z) : list CartItem :=
  match find_product productId productsData with
  | None => cart
  | Some product =>
      if quantity <=? 0 then cart
      else if p_stock product <? quantity then cart
      else map (fun item => if ct_productId item =? productId
                            then with_quantity item quantity else item) cart
  end.

(** [removeFromCart(productId)] *)
Definition remove_from_cart (cart : list CartItem) (productId : Z) : list CartItem :=
  filter (fun item => negb (ct_productId item =? productId)) cart.

(** The buttons and the quantity field of the page: the [+] buttons of the
    product list call [addToCart] with a product of [productsData]; the
    [-]/[+] buttons of a cart line call [updateQuantity] with -1/+1; the
    quantity field calls [setQuantity] with [parseInt(value) || 1]; the
    trash button calls [removeFromCart]; Clear Cart sets the cart to []. *)
Inductive CartEvent :=
| EAdd (product : Product)
| EUpdate (productId change : Z)
| ESet (productId quantity : Z)
| ERemove (productId : Z)
| EClear.

Definition cart_step (productsData : list Product) (cart : list CartItem)
    (ev : CartEvent) : list CartItem :=
  match ev with
  | EAdd product => add_to_cart cart product
  | EUpdate pid change => update_quantity productsData cart pid change
  | ESet pid quantity => set_quantity productsData cart pid quantity
  | ERemove pid => remove_from_cart cart pid
  | EClear => []
  end.

(** The product an [EAdd] carries is the one the list shows for its id. *)
Definition page_event (productsData : list Product) (ev : CartEvent) : Prop :=
  match ev with
  | EAdd product => find_product (p_id product) productsData = Some product
  | _ => True
  end.

Section CartInvariant.

Variable productsData : list Product.

(** One line per product, each with a quantity between 1 and the stock
    shown for the product. *)
Definition cart_ok (cart : list CartItem) : Prop :=
  NoDup (map ct_productId cart) /\
  Forall (fun item => exists p, find_product (ct_productId item) productsData = Some p /\
                                1 <= ct_quantity item <= p_stock p) cart.

Lemma map_same_ids :
  forall (f : CartItem -> CartItem) cart,
    (forall item, ct_productId (f item) = ct_productId item) ->
    map ct_productId (map f cart) = map ct_productId cart.
Proof.
  intros f cart Hf. rewrite map_map. apply map_ext. exact Hf.
Qed.

Lemma cart_ok_map :
  forall (f : CartItem -> CartItem) cart,
    cart_ok cart ->
    (forall item, ct_productId (f item) = ct_productId item) ->
    (forall item, In item cart ->
       exists p, find_product (ct_productId item) productsData = Some p /\
                 1 <= ct_quantity (f item) <= p_stock p) ->
    cart_ok (map f cart).
Proof.
  intros f cart [Hnd _] Hid Hq. split; [rewrite map_same_ids by exact Hid; exact Hnd |].
  apply Forall_forall. intros x Hin. apply in_map_iff in Hin. destruct Hin as [item [<- Hin]].
  rewrite Hid. exact (Hq item Hin).
Qed.

Lemma find_cart_item_unique :
  forall pid cart e item,
    NoDup (map ct_productId cart) -> find_cart_item pid cart = Some e ->
    In item cart -> ct_productId item = pid -> item = e.
Proof.
  intros pid cart e item. induction cart as [| x r IH]; intros Hnd Hf Hin Hid; [destruct Hin |].
  cbn in Hnd. apply NoDup_cons_iff in Hnd. destruct Hnd as [Hx Hr]. cbn in Hf.
  destruct (ct_productId x =? pid) eqn:H.
  - injection Hf as <-. destruct Hin as [-> | Hin]; [reflexivity |].
    exfalso. apply Hx. apply Z.eqb_eq in H. rewrite H, <- Hid. apply in_map, Hin.
  - destruct Hin as [-> | Hin]; [rewrite Hid, Z.eqb_refl in H; discriminate |].
    exact (IH Hr Hf Hin Hid).
Qed.

Lemma find_cart_item_none :
  forall pid cart, find_cart_item pid cart = None -> ~ In pid (map ct_productId cart).
Proof.
  intros pid cart. induction cart as [| x r IH]; cbn; [tauto |].
  destruct (ct_productId x =? pid) eqn:H; [discriminate |].
  intros Hn [Heq | Hin]; [rewrite Heq, Z.eqb_refl in H; discriminate | exact (IH Hn Hin)].
Qed.

Lemma forall_cart_in :
  forall cart item, cart_ok cart -> In item cart ->
    exists p, find_product (ct_productId item) productsData = Some p /\
              1 <= ct_quantity item <= p_stock p.
Proof.
  intros cart item [_ Hf] Hin. exact (proj1 (Forall_forall _ _) Hf item Hin).
Qed.

Lemma cart_step_ok :
  forall cart ev, cart_ok cart -> page_event productsData ev ->
                  cart_ok (cart_step productsData cart ev).
Proof.
  intros cart ev Hok Hev. destruct ev as [product | pid change | pid quantity | pid |]; cbn in *.
  - unfold add_to_cart.
    destruct (find_cart_item (p_id product) cart) as [e |] eqn:Hf.
    + destruct (p_stock product <=? ct_quantity e) eqn:Hs; [exact Hok |].
      apply cart_ok_map; [exact Hok | intros item; destruct (_ =? _); reflexivity |].
      intros item Hin. destruct (ct_productId item =? p_id product) eqn:Hid.
      * apply Z.eqb_eq in Hid.
        pose proof (find_cart_item_unique _ _ _ _ (proj1 Hok) Hf Hin Hid) as He. subst e.
        destruct (forall_cart_in _ _ Hok Hin) as [p [Hp Hq]].
        rewrite Hid, Hev in Hp. injection Hp as <-.
        rewrite Hid. exists product. split; [exact Hev |]. cbn. apply Z.leb_gt in Hs. lia.
      * exact (forall_cart_in _ _ Hok Hin).
    + destruct (p_stock product <=? 0) eqn:Hs; [exact Hok |].
      destruct Hok as [Hnd Hf2]. split.
      * rewrite map_app. apply nodup_snoc; [exact Hnd | apply find_cart_item_none, Hf].
      * apply Forall_app. split; [exact Hf2 |]. constructor; [| constructor].
        exists product. split; [exact Hev |]. cbn. apply Z.leb_gt in Hs. lia.
  - unfold update_quantity.
    destruct (find_product pid productsData) as [product |] eqn:Hfp; [| exact Hok].
    apply cart_ok_map; [exact Hok | |].
    + intros item. destruct (_ =? _); [| reflexivity].
      destruct (_ <=? 0); [reflexivity |]. destruct (_ <? _); reflexivity.
    + intros item Hin. destruct (ct_productId item =? pid) eqn:Hid; [| exact (forall_cart_in _ _ Hok Hin)].
      destruct (ct_quantity item + change <=? 0) eqn:H1; [exact (forall_cart_in _ _ Hok Hin) |].
      destruct (p_stock product <? ct_quantity item + change) eqn:H2;
        [exact (forall_cart_in _ _ Hok Hin) |].
      apply Z.eqb_eq in Hid. rewrite Hid. exists product. split; [exact Hfp |].
      cbn. apply Z.leb_gt in H1. apply Z.ltb_ge in H2. lia.
  - unfold set_quantity.
    destruct (find_product pid productsData) as [product |] eqn:Hfp; [| exact Hok].
    destruct (quantity <=? 0) eqn:H1; [exact Hok |].
    destruct (p_stock product <? quantity) eqn:H2; [exact Hok |].
    apply cart_ok_map; [exact Hok | intros item; destruct (_ =? _); reflexivity |].
    intros item Hin. destruct (ct_productId item =? pid) eqn:Hid; [| exact (forall_cart_in _ _ Hok Hin)].
    apply Z.eqb_eq in Hid. rewrite Hid. exists product. split; [exact Hfp |].
    cbn. apply Z.leb_gt in H1. apply Z.ltb_ge in H2. lia.
  - destruct Hok as [Hnd Hf2]. unfold remove_from_cart. split.
    + apply nodup_map_filter, Hnd.
    + apply Forall_forall. intros x Hin. apply filter_In in Hin.
      exact (proj1 (Forall_forall _ _) Hf2 x (proj1 Hin)).
  - split; constructor.
Qed.

End CartInvariant.

(** X10: whatever sequence of page events builds the cart from an empty
    one, the cart holds at most one line per product and each line's
    quantity lies between 1 and the stock the page shows for the product. *)
Theorem billing_cart_invariant :
  forall productsData evs,
    Forall (page_event productsData) evs ->
    cart_ok productsData (fold_left (cart_step productsData) evs []).
Proof.
  intros productsData evs Hevs.
  assert (Hgen : forall evs cart, Forall (page_event productsData) evs ->
            cart_ok productsData cart ->
            cart_ok productsData (fold_left (cart_step productsData) evs cart)).
  { induction evs0 as [| ev r IH]; intros cart Hf Hok; cbn; [exact Hok |].
    inversion Hf as [| ? ? Hev Hr]; subst.
    apply IH; [exact Hr | apply cart_step_ok; assumption]. }
  apply Hgen; [exact Hevs | split; constructor].
Qed.

(** ** From the Billing cart to the commit *)

Lemma price_items_succeeds :
  forall products items subtotal acc,
    Forall (fun it => exists p, find_product (ci_productId it) products = Some p /\
                                ci_quantity it <= p_stock p) items ->
    exists subtotal' saleItems,
      price_items products items subtotal acc = inr (subtotal', saleItems).
Proof.
  intros products items. induction items as [| it r IH]; intros subtotal acc Hf; cbn.
  - eauto.
  - inversion Hf as [| ? ? [p [Hfp Hq]] Hr]; subst. rewrite Hfp.
    replace (p_stock p <? ci_quantity it) with false by (symmetry; apply Z.ltb_ge; exact Hq).
    apply IH, Hr.
Qed.

Lemma cart_lines_ok :
  forall productsData cart,
    cart_ok productsData cart ->
    NoDup (map ci_productId (map (fun item => mkCartLine (ct_productId item) (ct_quantity item)) cart)) /\
    Forall (fun it => exists p, find_product (ci_productId it) productsData = Some p /\
                                ci_quantity it <= p_stock p)
      (map (fun item => mkCartLine (ct_productId item) (ct_quantity item)) cart).
Proof.
  intros productsData cart [Hnd Hf]. rewrite map_map. cbn. split; [exact Hnd |].
  apply Forall_map. eapply Forall_impl; [| exact Hf].
  intros item [p [Hp Hq]]. cbn. exists p. split; [exact Hp | lia].
Qed.

(** X11: a cart the Billing page holds for the product list it shows,
    submitted when that list is what products.json holds, passes the item
    loop of POST /api/sales: once the body passes validation, the sale
    history is short enough for the id computation and both writes
    succeed, the sale is created and appended, and if no stock was negative
    before, none is after. *)
Theorem billing_cart_commits :
  forall productsData cart customerName paymentMethod dField tField rq wr user now sales,
    cart_ok productsData cart ->
    billing_on_submit cart customerName paymentMethod dField tField = Some rq ->
    validate_sale_request rq = true ->
    stock_nonneg productsData ->
    spread_fits (max_call_args wr) (List.length sales) = true ->
    products_write wr = WriteOk -> sales_write wr = WriteOk ->
    exists sale,
      post_sales wr user now rq (mkDataFiles productsData sales) =
        (RCreated sale, mkDataFiles (update_stock (rq_items rq) now productsData)
                          (sales ++ [sale])) /\
      stock_nonneg (update_stock (rq_items rq) now productsData).
Proof.
  intros productsData cart customerName paymentMethod dField tField rq wr user now sales
    Hok Hsub Hv Hn Hsp Hw1 Hw2.
  unfold billing_on_submit in Hsub.
  destruct (negb (_ && _)); [discriminate |].
  destruct cart as [| c0 cs]; [discriminate |].
  assert (Hitems : rq_items rq =
            map (fun item => mkCartLine (ct_productId item) (ct_quantity item)) (c0 :: cs))
    by (injection Hsub as <-; reflexivity).
  destruct (cart_lines_ok _ _ Hok) as [Hnd Hf]. rewrite <- Hitems in Hnd, Hf.
  destruct (price_items_succeeds productsData _ 0%float [] Hf) as [sub [items Hp]].
  eexists. split.
  - unfold post_sales. rewrite Hv. cbn [negb products_json sales_json]. rewrite Hp, Hsp.
    unfold write_products, write_sales. rewrite Hw1, Hw2. reflexivity.
  - apply update_nonneg; assumption.
Qed.

(** ** Concrete runs of the properties above *)

Ltac nodup_by_eval :=
  repeat (apply NoDup_cons;
          [cbn; intros Hin; repeat destruct Hin as [Hin | Hin]; try discriminate; contradiction |]);
  apply NoDup_nil.

Ltac stock_nonneg_by_eval := unfold stock_nonneg; repeat constructor; cbn; lia.

Ltac catalog_ok_by_eval :=
  split; [cbn; nodup_by_eval | split; [cbn; nodup_by_eval | stock_nonneg_by_eval]].

Definition gadget : Product := mkProduct 2 "Gadget" "G001" 1 2.5%float 4 0.

Definition sample_catalog : list Product := [widget 10.0%float 5; gadget].

(** A sales.json write failing after its truncating open, once
    products.json was written. *)
Lemma post_sales_failure_effects_witness :
  match post_sales (mkWriteOutcome WriteOk WritePartial 65536) cashier 100
          (cash_request [mkCartLine 1 3] None None) (mkDataFiles [widget 10.0%float 5] []) with
  | (RServerError, fs') =>
      let products' := update_stock [mkCartLine 1 3] 100 [widget 10.0%float 5] in
      (sales_json fs' = [] /\
       (products_json fs' = [widget 10.0%float 5] \/ products_json fs' = [] \/
        products_json fs' = products')) \/
      (products_json fs' = products' /\
       (sales_json fs' = [] \/ sales_json fs' = [] \/ exists sale, sales_json fs' = [] ++ [sale]))
  | _ => False
  end.
Proof.
  destruct (post_sales (mkWriteOutcome WriteOk WritePartial 65536) cashier 100
              (cash_request [mkCartLine 1 3] None None) (mkDataFiles [widget 10.0%float 5] []))
    as [r fs'] eqn:Hp.
  pose proof (post_sales_failure_effects _ _ _ _ _ _ _ Hp) as H.
  pose proof Hp as Hc. vm_compute in Hc. injection Hc as <- <-. exact H.
Defined.

(** Two lines for the same product, each within the stock on its own. *)
Lemma created_sale_lines_witness :
  match post_sales all_writes_ok cashier 100
          (cash_request [mkCartLine 1 2; mkCartLine 1 1] None None)
          (mkDataFiles [widget 10.0%float 2] []) with
  | (RCreated sale, _) =>
      Forall2 (fun item si => exists p,
                 find_product (ci_productId item) [widget 10.0%float 2] = Some p /\
                 ci_quantity item <= p_stock p /\
                 si = mkSaleItem (ci_productId item) (p_name p) (p_sku p) (p_price p)
                        (ci_quantity item)
                        (PrimFloat.mul (p_price p) (float_of_Z (ci_quantity item))))
        [mkCartLine 1 2; mkCartLine 1 1] (s_items sale) /\
      s_subtotal sale = fold_left PrimFloat.add (map si_total (s_items sale)) 0%float
  | _ => False
  end.
Proof.
  destruct (post_sales all_writes_ok cashier 100
              (cash_request [mkCartLine 1 2; mkCartLine 1 1] None None)
              (mkDataFiles [widget 10.0%float 2] [])) as [r fs'] eqn:Hp.
  pose proof Hp as Hc. vm_compute in Hc. injection Hc as <- <-.
  exact (created_sale_lines _ _ _ _ _ _ _ Hp).
Defined.


Lemma created_sale_distinct_ids_stock_nonneg_witness :
  match post_sales all_writes_ok cashier 100
          (cash_request [mkCartLine 1 3; mkCartLine 2 4] None None)
          (mkDataFiles sample_catalog []) with
  | (RCreated _, fs') => stock_nonneg (products_json fs')
  | _ => False
  end.
Proof.
  destruct (post_sales all_writes_ok cashier 100
              (cash_request [mkCartLine 1 3; mkCartLine 2 4] None None)
              (mkDataFiles sample_catalog [])) as [r fs'] eqn:Hp.
  pose proof Hp as Hc. vm_compute in Hc. injection Hc as <- <-.
  refine (created_sale_distinct_ids_stock_nonneg _ _ _ _ _ _ _ Hp _ _);
    [cbn; nodup_by_eval | stock_nonneg_by_eval].
Defined.

(** The write of products.json fails when closing the file, after the
    data was written. *)
Lemma post_products_keeps_catalog_witness :
  match post_products WriteCloseFailed 65536 100 (mkProductBody "Gizmo" "Z001" 1 4.0%float 7 2)
          sample_catalog with
  | (CServerError, ps') =>
      catalog_ok ps' /\
      (ps' = sample_catalog \/ ps' = [] \/
       exists p, ps' = sample_catalog ++ [p] /\ Forall (fun i => i < p_id p) [1; 2])
  | _ => False
  end.
Proof.
  destruct (post_products WriteCloseFailed 65536 100 (mkProductBody "Gizmo" "Z001" 1 4.0%float 7 2)
              sample_catalog) as [r ps'] eqn:Hp.
  pose proof Hp as Hc. vm_compute in Hc. injection Hc as <- <-.
  assert (Hok : catalog_ok sample_catalog) by catalog_ok_by_eval.
  exact (post_products_keeps_catalog _ _ _ _ _ _ _ Hok Hp).
Defined.

(** The write of products.json fails after its truncating open. *)
Lemma put_products_keeps_catalog_witness :
  match put_products WritePartial 100 1 (mkProductBody "Widget Pro" "W002" 1 12.0%float 4 1)
          sample_catalog with
  | (CServerError, ps') =>
      catalog_ok ps' /\ (map p_id ps' = [1; 2] \/ (CServerError = CServerError /\ ps' = []))
  | _ => False
  end.
Proof.
  destruct (put_products WritePartial 100 1 (mkProductBody "Widget Pro" "W002" 1 12.0%float 4 1)
              sample_catalog) as [r ps'] eqn:Hp.
  pose proof Hp as Hc. vm_compute in Hc. injection Hc as <- <-.
  assert (Hok : catalog_ok sample_catalog) by catalog_ok_by_eval.
  exact (put_products_keeps_catalog _ _ _ _ _ _ _ Hok Hp).
Defined.

(** An id that is not in the catalog. *)
Lemma delete_products_keeps_catalog_witness :
  match delete_products WriteOk 7 sample_catalog with
  | (r, ps') => catalog_ok ps' /\ (r = CNotFound "Product not found" <->
                                   find_product 7 sample_catalog = None)
  end.
Proof.
  destruct (delete_products WriteOk 7 sample_catalog) as [r ps'] eqn:Hp.
  assert (Hok : catalog_ok sample_catalog) by catalog_ok_by_eval.
  destruct (delete_products_keeps_catalog _ _ _ _ _ Hok Hp) as [H1 [H2 _]].
  exact (conj H1 H2).
Defined.

(** The write of categories.json fails at its open. *)
Lemma delete_categories_keeps_references_witness :
  match delete_categories WriteOpenFailed 2 [mkCategory 1 "Tools"; mkCategory 2 "Toys"]
          sample_catalog with
  | (CServerError, cats') => categories_resolved sample_catalog cats' \/ cats' = []
  | _ => False
  end.
Proof.
  destruct (delete_categories WriteOpenFailed 2 [mkCategory 1 "Tools"; mkCategory 2 "Toys"]
              sample_catalog) as [r cats'] eqn:Hp.
  pose proof Hp as Hc. vm_compute in Hc. injection Hc as <- <-.
  assert (Hres : categories_resolved sample_catalog [mkCategory 1 "Tools"; mkCategory 2 "Toys"]).
  { repeat constructor; eexists; reflexivity. }
  destruct (proj2 (delete_categories_keeps_references _ _ _ _ _ _ Hp) Hres) as [H | [_ H]];
    [left | right]; exact H.
Defined.

(** Three clicks on a product with stock 2, one [-], 9 typed in, Clear Cart,
    one more click. *)
Lemma billing_cart_invariant_witness :
  cart_ok [widget 10.0%float 2]
    (fold_left (cart_step [widget 10.0%float 2])
       [EAdd (widget 10.0%float 2); EAdd (widget 10.0%float 2); EAdd (widget 10.0%float 2);
        EUpdate 1 (-1); ESet 1 9; EClear; EAdd (widget 10.0%float 2)] []).
Proof.
  apply billing_cart_invariant. repeat constructor.
Defined.

Lemma billing_cart_commits_witness :
  match billing_on_submit [mkCartItem 1 "Widget" "W001" 10.0%float 2 20.0%float]
          "" "cash" 10.0%float 0.0%float with
  | Some rq =>
      exists sale,
        post_sales (mkWriteOutcome WriteOk WriteOk 100000) cashier 100 rq (mkDataFiles [widget 10.0%float 5] []) =
          (RCreated sale, mkDataFiles (update_stock (rq_items rq) 100 [widget 10.0%float 5])
                            ([] ++ [sale])) /\
        stock_nonneg (update_stock (rq_items rq) 100 [widget 10.0%float 5])
  | None => False
  end.
Proof.
  destruct (billing_on_submit [mkCartItem 1 "Widget" "W001" 10.0%float 2 20.0%float]
              "" "cash" 10.0%float 0.0%float) as [rq |] eqn:Hs;
    [| vm_compute in Hs; discriminate].
  apply (billing_cart_commits [widget 10.0%float 5]
           [mkCartItem 1 "Widget" "W001" 10.0%float 2 20.0%float]
           "" "cash" 10.0%float 0.0%float rq (mkWriteOutcome WriteOk WriteOk 100000)
           cashier 100 []); [| exact Hs | | | reflexivity | reflexivity | reflexivity].
  - split; [cbn; nodup_by_eval |].
    constructor; [| constructor]. exists (widget 10.0%float 5). split; [reflexivity | cbn; lia].
  - pose proof Hs as Hc. vm_compute in Hc. injection Hc as <-. vm_compute. reflexivity.
  - stock_nonneg_by_eval.
Defined.
